(** * Verification of the secure content-access layer

    A shallow embedding of the TypeScript sources of the Next.js / React /
    Tailwind assistant server:

    - [utils/security.ts]: [sanitizeAndValidatePath], [isPathWithinBase],
      [validateToolInput] and its per-tool validators;
    - [index.ts]: the tool handlers [get_catalyst_component], [get_pattern],
      [get_library_docs], [recommend_template], [answer_questionnaire] and the
      helpers [calculateRecommendations] and [searchInContent].

    JavaScript strings are modelled by [string] (one [ascii] per code unit),
    JavaScript numbers by binary64 primitive floats where the code computes
    with fractions, by [Z]/[nat] where it only counts, and by [Js.number]
    (a rational, [NaN] or an infinity) where a number is only compared with
    a count.  The functions of Node's [path] module are modelled for the
    POSIX flavour ([path.posix]), with the current working directory as an
    explicit argument. *)

From Stdlib Require Import ZArith QArith Ascii String List Bool Floats Lia.
From Stdlib Require Import Permutation Sorted DecimalString.
From stdpp Require Import base gmap strings list.

Local Open Scope string_scope.

(* ===================================================================== *)
(** * JavaScript string primitives *)
(* ===================================================================== *)

Module Js.

(** [s.startsWith(p)] *)
Fixpoint startsWith (s p : string) : bool :=
  match p with
  | EmptyString => true
  | String b p' =>
      match s with
      | EmptyString => false
      | String a s' => if Ascii.eqb a b then startsWith s' p' else false
      end
  end.

(** [s.charCodeAt(s.length - 1) === c] *)
Fixpoint lastCharIs (c : ascii) (s : string) : bool :=
  match s with
  | EmptyString => false
  | String a EmptyString => Ascii.eqb a c
  | String _ s' => lastCharIs c s'
  end.

(** [s.includes(sub)]: [sub] occurs at some offset of [s]. *)
Fixpoint includes (s sub : string) : bool :=
  startsWith s sub ||
  match s with
  | EmptyString => false
  | String _ s' => includes s' sub
  end.

(** [s.split(c)] for a one-character separator; the result is never empty. *)
Fixpoint split (c : ascii) (s : string) : list string :=
  match s with
  | EmptyString => [EmptyString]
  | String a s' =>
      if Ascii.eqb a c then EmptyString :: split c s'
      else match split c s' with
           | h :: t => String a h :: t
           | [] => [String a EmptyString]
           end
  end.

(** [parts.join(sep)] *)
Fixpoint join (sep : string) (parts : list string) : string :=
  match parts with
  | [] => EmptyString
  | [x] => x
  | x :: rest => x +:+ sep +:+ join sep rest
  end.

(** The code units below 256 that [toLowerCase] changes: [A-Z], and the
    capital letters of Latin-1, U+00C0 to U+00DE without the sign U+00D7. *)
Definition isUpper (c : ascii) : bool :=
  let n := nat_of_ascii c in
  (65 <=? n)%nat && (n <=? 90)%nat
  || (192 <=? n)%nat && (n <=? 222)%nat && negb (n =? 215)%nat.

Definition lowerChar (c : ascii) : ascii :=
  if isUpper c then ascii_of_nat (nat_of_ascii c + 32) else c.

(** [s.toLowerCase()], code unit by code unit. *)
Fixpoint toLowerCase (s : string) : string :=
  match s with
  | EmptyString => EmptyString
  | String c s' => String (lowerChar c) (toLowerCase s')
  end.

(** Decimal rendering of a non-negative integer, as in a template literal. *)
Definition numberToString (n : nat) : string :=
  NilEmpty.string_of_uint (Nat.to_uint n).

(** [arr.slice(start, end)] for [0 <= start]. *)
Definition slice {A} (l : list A) (start stop : nat) : list A :=
  firstn (stop - start) (skipn start l).

(** [arr.includes(x)] on an array of strings. *)
Definition arrayIncludes (l : list string) (x : string) : bool :=
  existsb (String.eqb x) l.

(** [Array.prototype.sort] is stable: with a consistent comparator its
    result is the one of a stable insertion sort, where [x] goes in front
    of the first element [y] with [compare x y <= 0]. *)
Fixpoint insertSorted {A} (compare : A -> A -> Z) (x : A) (l : list A) : list A :=
  match l with
  | [] => [x]
  | y :: l' =>
      if (compare x y <=? 0)%Z then x :: l else y :: insertSorted compare x l'
  end.

Definition sort {A} (compare : A -> A -> Z) (l : list A) : list A :=
  foldr (insertSorted compare) [] l.

(** An array length as a JavaScript number. *)
Definition ofNat (n : nat) : float :=
  PrimFloat.of_uint63 (Uint63.of_Z (Z.of_nat n)).

(** [Math.round] of a finite number: the integer [floor (x + 1/2)],
    computed exactly from the mantissa and exponent of [x].  Scores are
    finite; the other floats are mapped to 0. *)
Definition round (x : float) : Z :=
  match Prim2SF x with
  | S754_finite s m e =>
      let num := if s then Z.neg m else Z.pos m in
      if (0 <=? e)%Z then (num * 2 ^ e)%Z
      else let d := (2 ^ (- e))%Z in ((2 * num + d) / (2 * d))%Z
  | _ => 0%Z
  end.

(** A JavaScript number that the code only compares with an array length.
    Every finite binary64 value is a rational, so [Finite] covers all of
    them, fractions included. *)
Inductive number :=
| Finite (q : Q)
| NaN
| Infinity
| NegInfinity.

(** The number with the integer value [n]. *)
Definition integer (n : nat) : number := Finite (inject_Z (Z.of_nat n)).

(** [n < x] for an array length [n]: the comparison of the two values, and
    [false] when [x] is [NaN]. *)
Definition natLt (n : nat) (x : number) : bool :=
  match x with
  | Finite q => negb (Qle_bool q (inject_Z (Z.of_nat n)))
  | Infinity => true
  | NaN | NegInfinity => false
  end.

End Js.

(* ===================================================================== *)
(** * Node's [path] module, POSIX flavour *)
(* ===================================================================== *)

Module Path.

Definition sep : string := "/".
Definition slash : ascii := "/"%char.

(** One step of [normalizeString]: the effect of the segment [seg] on the
    segments kept so far ([stack], most recent first).  Empty segments and
    ["."] are dropped, [".."] removes the last kept segment unless there is
    none or it is itself [".."], in which case it is kept only when
    [allowAboveRoot]. *)
Definition normStep (allowAboveRoot : bool) (stack : list string) (seg : string)
  : list string :=
  if String.eqb seg "" || String.eqb seg "." then stack
  else if String.eqb seg ".." then
    match stack with
    | top :: rest =>
        if String.eqb top ".." then
          (if allowAboveRoot then ".." :: stack else stack)
        else rest
    | [] => if allowAboveRoot then [".."] else []
    end
  else seg :: stack.

Definition normSegments (allowAboveRoot : bool) (segs : list string) : list string :=
  rev (fold_left (normStep allowAboveRoot) segs []).

Definition normalizeString (path : string) (allowAboveRoot : bool) : string :=
  Js.join sep (normSegments allowAboveRoot (Js.split slash path)).

(** [path.normalize(p)] *)
Definition normalize (path : string) : string :=
  if String.eqb path "" then "."
  else
    let isAbsolute := Js.startsWith path sep in
    let trailingSeparator := Js.lastCharIs slash path in
    let p := normalizeString path (negb isAbsolute) in
    if String.eqb p "" then
      (if isAbsolute then "/" else if trailingSeparator then "./" else ".")
    else
      let p := if trailingSeparator then p +:+ "/" else p in
      if isAbsolute then "/" +:+ p else p.

(** [path.join(...args)] *)
Definition join (args : list string) : string :=
  match filter (fun a => a <> "") args with
  | [] => "."
  | parts => normalize (Js.join sep parts)
  end.

(** The right-to-left loop of [path.resolve]: [paths] lists the arguments
    last to first, followed by the working directory. *)
Fixpoint resolveLoop (paths : list string) (resolvedPath : string) : string * bool :=
  match paths with
  | [] => (resolvedPath, false)
  | p :: rest =>
      if String.eqb p "" then resolveLoop rest resolvedPath
      else
        let resolvedPath := p +:+ "/" +:+ resolvedPath in
        if Js.startsWith p sep then (resolvedPath, true)
        else resolveLoop rest resolvedPath
  end.

(** [path.resolve(...args)] when [process.cwd()] is [cwd]. *)
Definition resolve (cwd : string) (args : list string) : string :=
  let '(resolvedPath, resolvedAbsolute) := resolveLoop (rev args ++ [cwd])%list "" in
  let n := normalizeString resolvedPath (negb resolvedAbsolute) in
  if resolvedAbsolute then "/" +:+ n
  else if String.eqb n "" then "." else n.

End Path.

(* ===================================================================== *)
(** * [utils/security.ts] *)
(* ===================================================================== *)

Record ValidationResult := {
  isValid : bool;
  sanitizedValue : option string;
  error : option string
}.

Definition invalid (msg : string) : ValidationResult :=
  {| isValid := false; sanitizedValue := None; error := Some msg |}.

Definition valid (v : string) : ValidationResult :=
  {| isValid := true; sanitizedValue := Some v; error := None |}.

(** [s.replace(/^(\.\.[\\/\\])+/, '')]: drops every leading [".."] that is
    followed by a slash or a backslash. *)
Fixpoint stripLeadingTraversal (s : string) : string :=
  match s with
  | String "." (String "." (String c rest)) =>
      if Ascii.eqb c "/" || Ascii.eqb c "\" then stripLeadingTraversal rest else s
  | _ => s
  end.

Definition NUL : string := String Ascii.zero EmptyString.

(** The four "dangerous patterns" tested after normalization. *)
Definition dangerous (s : string) : bool :=
  Js.includes s ".." || Js.includes s "/" || Js.includes s "\" || Js.includes s NUL.

Definition isAlnum (c : ascii) : bool :=
  let n := nat_of_ascii c in
  ((97 <=? n) && (n <=? 122) || (65 <=? n) && (n <=? 90) || (48 <=? n) && (n <=? 57))%nat.

(** The character class [[a-zA-Z0-9\-_.]]. *)
Definition allowedChar (c : ascii) : bool :=
  isAlnum c || Ascii.eqb c "-" || Ascii.eqb c "_" || Ascii.eqb c ".".

Fixpoint allChars (p : ascii -> bool) (s : string) : bool :=
  match s with
  | EmptyString => true
  | String c s' => p c && allChars p s'
  end.

(** [/^[a-zA-Z0-9\-_.]+$/.test(s)] *)
Definition allowedPattern (s : string) : bool :=
  negb (String.eqb s "") && allChars allowedChar s.

Definition defaultMaxLength : nat := 100.

Definition sanitizeAndValidatePath (userInput : string) (maxLength : nat)
  : ValidationResult :=
  if String.eqb userInput "" then
    invalid "Input must be a non-empty string"
  else if (maxLength <? String.length userInput)%nat then
    invalid ("Input exceeds maximum length of " +:+ Js.numberToString maxLength
             +:+ " characters")
  else
    let normalized := stripLeadingTraversal (Path.normalize userInput) in
    if dangerous normalized then
      invalid "Invalid characters detected in path"
    else if negb (allowedPattern normalized) then
      invalid "Path contains invalid characters. Only alphanumeric, hyphens, underscores, and dots are allowed"
    else valid normalized.

(** [isPathWithinBase], with [process.cwd()] made explicit. *)
Definition isPathWithinBase (cwd requestedPath basePath : string) : bool :=
  let resolvedBase := Path.resolve cwd [basePath] in
  let resolvedRequested := Path.resolve cwd [requestedPath] in
  Js.startsWith resolvedRequested (resolvedBase +:+ Path.sep)
  || String.eqb resolvedRequested resolvedBase.

(** ** Tool arguments and errors *)

(** A value found in a tool's argument object. *)
Inductive JsVal :=
| JUndefined
| JString (s : string)
| JNumber (n : Z).

(** Conversion performed by a template literal. *)
Definition toStr (v : JsVal) : string :=
  match v with
  | JUndefined => "undefined"
  | JString s => s
  | JNumber n => NilEmpty.string_of_int (Z.to_int n)
  end.

(** [args.field]; a missing property reads as [undefined]. *)
Definition prop (args : gmap string JsVal) (field : string) : JsVal :=
  default JUndefined (args !! field).

Inductive ErrorCode := InvalidParams | InvalidRequest | InternalError.

(** What a handler can throw: an [McpError], a Node error that carries a
    string [code] such as [ENOENT], or a plain [TypeError], which has no
    [code]. *)
Inductive Exn :=
| McpError (code : ErrorCode) (message : string)
| SystemError (code : string)
| TypeError (message : string).

(** [!v || typeof v !== 'string'] *)
Definition missingOrNotString (v : JsVal) : bool :=
  match v with
  | JString s => String.eqb s ""
  | _ => true
  end.

Definition isControlChar (c : ascii) : bool :=
  let n := nat_of_ascii c in (n <=? 31)%nat || (n =? 127)%nat.

Definition validateSearchDocsArgs (args : gmap string JsVal) : Exn + unit :=
  match prop args "query" with
  | JString q =>
      if String.eqb q "" then
        inl (McpError InvalidParams "Missing or invalid 'query' argument")
      else if (String.length q <? 2)%nat then
        inl (McpError InvalidParams "Search query must be at least 2 characters")
      else if (100 <? String.length q)%nat then
        inl (McpError InvalidParams "Search query exceeds maximum length of 100 characters")
      else if Js.includes q NUL || negb (allChars (fun c => negb (isControlChar c)) q) then
        inl (McpError InvalidParams "Search query contains invalid characters")
      else
        match prop args "limit" with
        | JUndefined => inr tt
        | JNumber n =>
            if (n <? 1)%Z || (20 <? n)%Z then
              inl (McpError InvalidParams "Limit must be a number between 1 and 20")
            else inr tt
        | JString _ =>
            inl (McpError InvalidParams "Limit must be a number between 1 and 20")
        end
  | _ => inl (McpError InvalidParams "Missing or invalid 'query' argument")
  end.

Definition validateCatalystComponentArgs (args : gmap string JsVal) : Exn + unit :=
  match prop args "component_name" with
  | JString name =>
      if String.eqb name "" then
        inl (McpError InvalidParams "Missing or invalid 'component_name' argument")
      else
        let validation := sanitizeAndValidatePath name 50 in
        if negb (isValid validation) then
          inl (McpError InvalidParams
                 ("Invalid component_name: " +:+ default "undefined" (error validation)))
        else inr tt
  | _ => inl (McpError InvalidParams "Missing or invalid 'component_name' argument")
  end.

Definition allowedCategories : list string := ["layouts"; "pages"; "features"].

Definition validatePatternArgs (args : gmap string JsVal) : Exn + unit :=
  if missingOrNotString (prop args "category") then
    inl (McpError InvalidParams "Missing or invalid 'category' argument")
  else if missingOrNotString (prop args "pattern_name") then
    inl (McpError InvalidParams "Missing or invalid 'pattern_name' argument")
  else if negb (Js.arrayIncludes allowedCategories (toStr (prop args "category"))) then
    inl (McpError InvalidParams
           ("Invalid category. Must be one of: " +:+ Js.join ", " allowedCategories))
  else
    let validation := sanitizeAndValidatePath (toStr (prop args "pattern_name")) 50 in
    if negb (isValid validation) then
      inl (McpError InvalidParams
             ("Invalid pattern_name: " +:+ default "undefined" (error validation)))
    else inr tt.

(** The dispatch of [validateToolInput]; a tool name without a case of its
    own takes the [default] branch, which validates nothing.  [args] is an
    object here: a handler reads a property of it before this call, which
    [undefined] does not survive. *)
Definition validateToolInput (toolName : string) (args : gmap string JsVal)
  : Exn + unit :=
  if String.eqb toolName "search_nextjs_docs"
     || String.eqb toolName "search_tailwind_docs" then validateSearchDocsArgs args
  else if String.eqb toolName "get_catalyst_component" then
    validateCatalystComponentArgs args
  else if String.eqb toolName "get_pattern" then validatePatternArgs args
  else inr tt.

(* ===================================================================== *)
(** * [index.ts]: configuration, file system and the monad of handlers *)
(* ===================================================================== *)

Record ServerConfig := {
  contentBasePath : string;
  catalystComponentsPath : string;
  patternsPath : string;
  templatesPath : string;
  libraryDocsPath : string;
  maxFileSize : Z;
  largeFileSize : Z;
  cacheTimeout : Z
}.

(** The configuration built by [createServer] when [process.cwd()] is [cwd]. *)
Definition CONFIG (cwd : string) : ServerConfig := {|
  contentBasePath := Path.join [cwd; "content"];
  catalystComponentsPath := Path.join [cwd; "content"; "components"; "catalyst"];
  patternsPath := Path.join [cwd; "content"; "patterns"];
  templatesPath := Path.join [cwd; "content"; "templates"; "starter-kits.json"];
  libraryDocsPath := Path.join [cwd; "content"; "docs"; "libraries"];
  maxFileSize := 1 * 1024 * 1024;
  largeFileSize := 5 * 1024 * 1024;
  cacheTimeout := 5 * 60 * 1000
|}.

(** An entry of the file system: a readable file, or a path whose read fails
    with the given system error code (a file that may not be read, an empty
    directory).  The directories above an entry are not entries themselves:
    they are implied by it. *)
Inductive FileNode :=
| RegularFile (content : string)
| Unreadable (code : string).

(** The state a handler runs in: the files on disk, the clock (milliseconds)
    and the log of the paths handed to [fs.readFile] so far, oldest first. *)
Record World := {
  files : gmap string FileNode;
  now : Z;
  readLog : list string
}.

Definition M (A : Type) : Type := World -> (Exn + A) * World.

Definition ret {A} (a : A) : M A := fun w => (inr a, w).

Definition throw {A} (e : Exn) : M A := fun w => (inl e, w).

Definition bind {A B} (m : M A) (k : A -> M B) : M B :=
  fun w =>
    match m w with
    | (inl e, w') => (inl e, w')
    | (inr a, w') => k a w'
    end.

(** [try { body } catch (error) { handler error }] *)
Definition tryCatch {A} (body : M A) (handler : Exn -> M A) : M A :=
  fun w =>
    match body w with
    | (inl e, w') => handler e w'
    | (inr a, w') => (inr a, w')
    end.

Definition lift {A} (r : Exn + A) : M A := fun w => (r, w).

Notation "'do' x <- m ;; k" := (bind m (fun x => k))
  (at level 10, x name, m at level 99, k at level 200).
Notation "'run' m ;; k" := (bind m (fun _ => k))
  (at level 10, m at level 99, k at level 200).

(** The world once [path] has been handed to [fs.readFile]. *)
Definition logRead (path : string) (w : World) : World :=
  {| files := files w; now := now w; readLog := (readLog w ++ [path])%list |}.

(** The prefixes of [rest] that end just before a separator, each behind
    [prefix]. *)
Fixpoint ancestorsFrom (prefix rest : string) : list string :=
  match rest with
  | EmptyString => []
  | String c rest' =>
      ((if Ascii.eqb c Path.slash then [prefix] else [])
       ++ ancestorsFrom (prefix +:+ String c EmptyString) rest')%list
  end.

(** The directories that the system walks through to reach [path], the
    root apart. *)
Definition ancestors (path : string) : list string :=
  List.filter (fun p => negb (String.eqb p "")) (ancestorsFrom "" path).

Definition isRegularFile (w : World) (path : string) : bool :=
  match files w !! path with
  | Some (RegularFile _) => true
  | _ => false
  end.

(** Some entry lies below [path], which is then a directory. *)
Definition isDirectory (w : World) (path : string) : bool :=
  existsb (fun entry => Js.startsWith (fst entry) (path +:+ Path.sep))
    (map_to_list (files w)).

(** The error of a read at a path that has no entry: Node refuses a path
    with a NUL character ([ERR_INVALID_ARG_VALUE]) without asking the
    system; the system answers [ENOTDIR] when the path goes through a
    regular file, [EISDIR] when it is a directory, and [ENOENT] otherwise. *)
Definition missingCode (w : World) (path : string) : string :=
  if Js.includes path NUL then "ERR_INVALID_ARG_VALUE"
  else if existsb (isRegularFile w) (ancestors path) then "ENOTDIR"
  else if isDirectory w path then "EISDIR"
  else "ENOENT".

(** [await fs.readFile(path, 'utf-8')].  An entry of the map is the answer
    at its path; no file system has an entry at a path with a NUL character
    or below a regular file. *)
Definition fs_readFile (path : string) : M string :=
  fun w =>
    let w' := logRead path w in
    match files w !! path with
    | Some (RegularFile content) => (inr content, w')
    | Some (Unreadable code) => (inl (SystemError code), w')
    | None => (inl (SystemError (missingCode w path)), w')
    end.


(** The world in which the next request runs, whatever the outcome of [m]. *)
Definition worldAfter {A} (m : M A) (w : World) : World := snd (m w).

Record ContentResponse := { content : list string }.

Definition textResponse (text : string) : ContentResponse := {| content := [text] |}.

Definition LF : string := String (ascii_of_nat 10) EmptyString.
Definition FENCE : string := "```".

Section Handlers.

(** [ErrorHandler.formatSafeErrorMessage], from [utils/errorHandler.ts]. *)
Variable formatSafeErrorMessage : Exn -> string -> string.

Variable cfg : ServerConfig.

(** The [catch] block shared by the fetch handlers: [ENOENT] becomes a
    "not found" request error, an [McpError] is re-thrown, anything else is
    reported as an internal error. *)
Definition fetchCatch {A} (tool notFound : string) (e : Exn) : M A :=
  match e with
  | SystemError "ENOENT" => throw (McpError InvalidRequest notFound)
  | McpError _ _ => throw e
  | SystemError _ | TypeError _ =>
      throw (McpError InternalError (formatSafeErrorMessage e tool))
  end.

(** The paths assembled by the fetch handlers, from the raw arguments. *)
Definition componentPath (args : gmap string JsVal) : string :=
  Path.join [catalystComponentsPath cfg; toStr (prop args "component_name") +:+ ".tsx"].

Definition patternPath (args : gmap string JsVal) : string :=
  Path.join [patternsPath cfg; toStr (prop args "category");
             toStr (prop args "pattern_name") +:+ ".md"].

Definition libraryPath (args : gmap string JsVal) : string :=
  Path.join [libraryDocsPath cfg; toStr (prop args "library_name") +:+ ".txt"].

(** The error of [args.field] when [args], that is
    [request.params.arguments], is [undefined]. *)
Definition undefinedArguments (field : string) : Exn :=
  TypeError ("Cannot read properties of undefined (reading '" +:+ field +:+ "')").

(** The handlers take [request.params.arguments], which is [None] when the
    request carries no arguments object.  Each of them first reads the
    properties that go into the audit log, outside its [try] block. *)
Definition get_catalyst_component (arguments : option (gmap string JsVal))
  : M ContentResponse :=
  match arguments with
  | None => throw (undefinedArguments "component_name")
  | Some args =>
      let component_name := toStr (prop args "component_name") in
      tryCatch
        (run lift (validateToolInput "get_catalyst_component" args) ;;
         do content <- fs_readFile (componentPath args) ;;
         ret (textResponse
                ("# Catalyst UI Component: " +:+ component_name +:+ LF +:+ LF
                 +:+ FENCE +:+ "typescript" +:+ LF +:+ content +:+ LF +:+ FENCE)))
        (fetchCatch "get_catalyst_component"
           ("Catalyst component '" +:+ component_name
            +:+ "' not found. Use list_catalyst_components to see available components."))
  end.

Definition get_pattern (arguments : option (gmap string JsVal)) : M ContentResponse :=
  match arguments with
  | None => throw (undefinedArguments "category")
  | Some args =>
      let category := toStr (prop args "category") in
      let pattern_name := toStr (prop args "pattern_name") in
      tryCatch
        (run lift (validateToolInput "get_pattern" args) ;;
         do content <- fs_readFile (patternPath args) ;;
         ret (textResponse content))
        (fetchCatch "get_pattern"
           ("Pattern '" +:+ pattern_name +:+ "' not found in category '" +:+ category
            +:+ "'. Use list_patterns to see available patterns."))
  end.

Definition get_library_docs (arguments : option (gmap string JsVal))
  : M ContentResponse :=
  match arguments with
  | None => throw (undefinedArguments "library_name")
  | Some args =>
      let library_name := toStr (prop args "library_name") in
      tryCatch
        (run lift (validateToolInput "get_library_docs" args) ;;
         do content <- fs_readFile (libraryPath args) ;;
         ret (textResponse content))
        (fetchCatch "get_library_docs"
           ("Library documentation for '" +:+ library_name
            +:+ "' not found. Use list_library_docs to see available libraries."))
  end.

End Handlers.

(* ===================================================================== *)
(** * [index.ts]: the recommendation scorer *)
(* ===================================================================== *)

Module StarterKit.
Record t := {
  id : string;
  name : string;
  description : string;
  complexity : string;
  animations : string;
  features : list string
}.
End StarterKit.

(** An entry of [data.questionnaire.matching]; every array may be missing. *)
Module MatchData.
Record t := {
  purpose : option (list string);
  colorPreference : option (list string);
  animations : option (list string);
  features : option (list string);
  complexity : option (list string)
}.
End MatchData.

(** [RecommendTemplateArgs]: every field is optional. *)
Module Criteria.
Record t := {
  purpose : option string;
  colorPreference : option string;
  animations : option string;
  features : option (list string);
  complexity : option string
}.
End Criteria.

(** The parsed content of [starter-kits.json]: [data.starterKits] and
    [data.questionnaire.matching], an object keyed by kit id. *)
Record TemplateData := {
  starterKits : list StarterKit.t;
  matching : gmap string MatchData.t
}.

Record Recommendation := {
  kit : StarterKit.t;
  score : Z;
  reasons : list string
}.

(** [criterion && profile && profile.includes(criterion)]; an empty string is
    falsy. *)
Definition criterionMatches (criterion : option string) (profile : option (list string))
  : bool :=
  match criterion, profile with
  | Some c, Some l => negb (String.eqb c "") && Js.arrayIncludes l c
  | _, _ => false
  end.

Definition award (matched : bool) (points : float) (reason : string)
  (acc : float * list string) : float * list string :=
  if matched then ((fst acc + points)%float, (snd acc ++ [reason])%list) else acc.

(** The feature block: a share of 15 points proportional to the requested
    features found in the profile. *)
Definition awardFeatures (requested : option (list string))
  (profile : option (list string)) (acc : float * list string)
  : float * list string :=
  match requested, profile with
  | Some fs, Some pf =>
      if (0 <? length fs)%nat then
        let matchedFeatures := List.filter (fun f => Js.arrayIncludes pf f) fs in
        let featureScore :=
          (Js.ofNat (length matchedFeatures) / Js.ofNat (length fs) * 15)%float in
        ((fst acc + featureScore)%float,
         if (0 <? length matchedFeatures)%nat then
           (snd acc ++ ["Includes " +:+ Js.numberToString (length matchedFeatures)
                        +:+ " of your requested features"])%list
         else snd acc)
      else acc
  | _, _ => acc
  end.

(** The body of the loop of [calculateRecommendations] for one kit whose
    matching profile is [matchData]: the raw score and the reasons. *)
Definition scoreKit (matchData : MatchData.t) (criteria : Criteria.t)
  : float * list string :=
  let acc := (0%float, []) in
  let acc :=
    award (criterionMatches (Criteria.purpose criteria) (MatchData.purpose matchData)) 40
      ("Perfect match for " +:+ default "" (Criteria.purpose criteria) +:+ " use case")
      acc in
  let acc :=
    award (criterionMatches (Criteria.colorPreference criteria)
             (MatchData.colorPreference matchData)) 15
      ("Matches " +:+ default "" (Criteria.colorPreference criteria)
       +:+ " color scheme preference") acc in
  let acc :=
    award (criterionMatches (Criteria.animations criteria)
             (MatchData.animations matchData)) 20
      ("Has " +:+ default "" (Criteria.animations criteria) +:+ " animation level")
      acc in
  let acc := awardFeatures (Criteria.features criteria) (MatchData.features matchData) acc in
  award (criterionMatches (Criteria.complexity criteria)
           (MatchData.complexity matchData)) 10
    ("Matches " +:+ default "" (Criteria.complexity criteria) +:+ " complexity level")
    acc.

(** What the loop pushes for [kit], if anything: nothing without a matching
    profile, nothing unless the raw score is positive. *)
Definition recommendationFor (data : TemplateData) (criteria : Criteria.t)
  (kit : StarterKit.t) : option Recommendation :=
  match matching data !! StarterKit.id kit with
  | None => None
  | Some matchData =>
      let '(rawScore, reasons) := scoreKit matchData criteria in
      if (0 <? rawScore)%float then
        Some {| kit := kit; score := Js.round rawScore; reasons := reasons |}
      else None
  end.

(** [(a, b) => b.score - a.score] *)
Definition byScoreDescending (a b : Recommendation) : Z := (score b - score a)%Z.

Definition calculateRecommendations (data : TemplateData) (criteria : Criteria.t)
  : list Recommendation :=
  Js.sort byScoreDescending (omap (recommendationFor data criteria) (starterKits data)).

(** ** The two handlers that rank templates *)

(** The [recommendations] computed by the [recommend_template] handler from
    the parsed template file and its arguments. *)
Definition recommend_template_recommendations (data : TemplateData)
  (args : Criteria.t) : list Recommendation :=
  calculateRecommendations data args.

(** A questionnaire answer: a string or an array of strings. *)
Inductive Answer :=
| AString (s : string)
| AArray (l : list string).

(** [answers.key as string]: the cast checks nothing at run time; a value of
    the other shape is outside [RecommendTemplateArgs] and yields [None]. *)
Definition asString (answers : gmap string Answer) (key : string)
  : option (option string) :=
  match answers !! key with
  | None => Some None
  | Some (AString s) => Some (Some s)
  | Some (AArray _) => None
  end.

Definition asStringArray (answers : gmap string Answer) (key : string)
  : option (option (list string)) :=
  match answers !! key with
  | None => Some None
  | Some (AArray l) => Some (Some l)
  | Some (AString _) => None
  end.

(** The [criteria] object built by the [answer_questionnaire] handler. *)
Definition questionnaireCriteria (answers : gmap string Answer) : option Criteria.t :=
  purpose ← asString answers "purpose";
  colorPreference ← asString answers "colorPreference";
  animations ← asString answers "animations";
  features ← asStringArray answers "features";
  complexity ← asString answers "complexity";
  Some {| Criteria.purpose := purpose;
          Criteria.colorPreference := colorPreference;
          Criteria.animations := animations;
          Criteria.features := features;
          Criteria.complexity := complexity |}.

(** The [recommendations] computed by the [answer_questionnaire] handler. *)
Definition answer_questionnaire_recommendations (data : TemplateData)
  (answers : gmap string Answer) : option (list Recommendation) :=
  criteria ← questionnaireCriteria answers;
  Some (calculateRecommendations data criteria).

(* ===================================================================== *)
(** * [index.ts]: text search *)
(* ===================================================================== *)

Definition contextLines : nat := 3.

(** [lines[i].toLowerCase().includes(queryLower)] *)
Definition lineMatches (queryLower line : string) : bool :=
  Js.includes (Js.toLowerCase line) queryLower.

(** The excerpt pushed for a match at line [i]. *)
Definition excerptAt (lines : list string) (i : nat) : string :=
  let start := (i - contextLines)%nat in
  let stop := Nat.min (length lines) (i + contextLines + 1) in
  FENCE +:+ LF +:+ Js.join LF (Js.slice lines start stop) +:+ LF +:+ FENCE.

(** The [for] loop of [searchInContent], at index [i] with [rest] the lines
    from [i] on.  [count] is [results.length], compared with the number
    [limit] as the loop condition does; [skip] counts the lines that
    [i += contextLines] still jumps over after a match. *)
Fixpoint searchLoop (lines : list string) (queryLower : string) (limit : Js.number)
  (rest : list string) (i skip count : nat) : list string :=
  match rest with
  | [] => []
  | line :: rest' =>
      if Js.natLt count limit then
        match skip with
        | S skip' => searchLoop lines queryLower limit rest' (S i) skip' count
        | O =>
            if lineMatches queryLower line then
              excerptAt lines i
              :: searchLoop lines queryLower limit rest' (S i) contextLines (S count)
            else searchLoop lines queryLower limit rest' (S i) 0 count
        end
      else []
  end.

Definition searchInContent (content query : string) (limit : Js.number)
  : list string :=
  let lines := Js.split (ascii_of_nat 10) content in
  let queryLower := Js.toLowerCase query in
  searchLoop lines queryLower limit lines 0 0 0.

(** The number of lines of [content] in which [query] occurs, ignoring case. *)
Definition matchingLines (content query : string) : nat :=
  length (List.filter (lineMatches (Js.toLowerCase query))
            (Js.split (ascii_of_nat 10) content)).

(* ===================================================================== *)
(** * Vocabulary of the statements *)
(* ===================================================================== *)

(** [noChar c s]: the character [c] does not occur in [s]. *)
Definition noChar (c : ascii) (s : string) : bool :=
  allChars (fun a => negb (Ascii.eqb a c)) s.

(** The value on which [sanitizeAndValidatePath] runs its checks. *)
Definition normalizedInput (userInput : string) : string :=
  stripLeadingTraversal (Path.normalize userInput).

(** A segment that [normalizeString] keeps as it is. *)
Definition plainSeg (e : string) : bool :=
  negb (String.eqb e "") && negb (String.eqb e ".") && negb (String.eqb e "..").

(** A segment of a canonical path: plain and without a slash. *)
Definition segOk (e : string) : Prop :=
  plainSeg e = true /\ noChar Path.slash e = true.



(** A file system for the examples, served from [/srv/app]. *)
Definition demoWorld : World := {|
  files := {[ "/srv/app/content/components/catalyst/button.tsx" := RegularFile "BUTTON";
              "/srv/app/content/components/secret.tsx" := RegularFile "SECRET";
              "/srv/app/content/secret.md" := RegularFile "SECRET";
              "/srv/app/content/docs/nextjs/nextjs-full.txt" := RegularFile "DOCS" ]};
  now := 0;
  readLog := []
|}.

Definition demoFormat (e : Exn) (tool : string) : string := "Operation failed".

(** The recommendations pushed by the loop of [calculateRecommendations],
    in the order of the kits, before the sort. *)
Definition pushed (data : TemplateData) (criteria : Criteria.t) : list Recommendation :=
  omap (recommendationFor data criteria) (starterKits data).

(** No criterion matches the profile: none of the four single-valued
    dimensions, and no requested feature. *)
Definition noDimensionMatches (matchData : MatchData.t) (criteria : Criteria.t) : Prop :=
  criterionMatches (Criteria.purpose criteria) (MatchData.purpose matchData) = false /\
  criterionMatches (Criteria.colorPreference criteria)
    (MatchData.colorPreference matchData) = false /\
  criterionMatches (Criteria.animations criteria) (MatchData.animations matchData) = false /\
  criterionMatches (Criteria.complexity criteria) (MatchData.complexity matchData) = false /\
  (forall fs pf, Criteria.features criteria = Some fs ->
                 MatchData.features matchData = Some pf ->
                 List.filter (fun f => Js.arrayIncludes pf f) fs = []).

(** The criteria of the scorer example: four dimensions, no animation level. *)
Definition dashboardCriteria : Criteria.t := {|
  Criteria.purpose := Some "dashboard";
  Criteria.colorPreference := Some "professional";
  Criteria.animations := None;
  Criteria.features := Some ["auth"; "darkmode"];
  Criteria.complexity := Some "advanced"
|}.

Definition demoKit : StarterKit.t := {|
  StarterKit.id := "admin";
  StarterKit.name := "Admin";
  StarterKit.description := "Dashboard starter";
  StarterKit.complexity := "advanced";
  StarterKit.animations := "minimal";
  StarterKit.features := ["auth"; "darkmode"; "tables"]
|}.

Definition demoProfile : MatchData.t := {|
  MatchData.purpose := Some ["dashboard"; "app"];
  MatchData.colorPreference := Some ["professional"];
  MatchData.animations := Some ["minimal"];
  MatchData.features := Some ["auth"; "darkmode"];
  MatchData.complexity := Some ["advanced"]
|}.

Definition demoData : TemplateData := {|
  starterKits := [demoKit];
  matching := {[ "admin" := demoProfile ]}
|}.

(** Thirty-one requested features, of which the profile has one. *)
Definition manyFeatures : Criteria.t := {|
  Criteria.purpose := None;
  Criteria.colorPreference := None;
  Criteria.animations := None;
  Criteria.features := Some ("auth" :: repeat "ecommerce" 30);
  Criteria.complexity := None
|}.

(** The answers of a questionnaire carry the fields of [criteria]. *)
Definition answersCarry (answers : gmap string Answer) (criteria : Criteria.t) : Prop :=
  answers !! "purpose" = AString <$> Criteria.purpose criteria /\
  answers !! "colorPreference" = AString <$> Criteria.colorPreference criteria /\
  answers !! "animations" = AString <$> Criteria.animations criteria /\
  answers !! "features" = AArray <$> Criteria.features criteria /\
  answers !! "complexity" = AString <$> Criteria.complexity criteria.

(** No matching line has another matching line among the [contextLines]
    lines that follow it. *)
Fixpoint spaced (queryLower : string) (lines : list string) : bool :=
  match lines with
  | [] => true
  | line :: rest =>
      (if lineMatches queryLower line then
         forallb (fun l => negb (lineMatches queryLower l)) (firstn contextLines rest)
       else true)
      && spaced queryLower rest
  end.

(** The absolute path with the given segments. *)
Definition render (segs : list string) : string :=
  "/" +:+ Js.join Path.sep segs.

(** The criteria with every empty string and an empty feature list taken as
    not supplied. *)
Definition nonEmptyString (s : option string) : option string :=
  match s with
  | Some "" => None
  | _ => s
  end.

Definition withoutEmptyCriteria (criteria : Criteria.t) : Criteria.t := {|
  Criteria.purpose := nonEmptyString (Criteria.purpose criteria);
  Criteria.colorPreference := nonEmptyString (Criteria.colorPreference criteria);
  Criteria.animations := nonEmptyString (Criteria.animations criteria);
  Criteria.features :=
    match Criteria.features criteria with
    | Some [] => None
    | other => other
    end;
  Criteria.complexity := nonEmptyString (Criteria.complexity criteria)
|}.

(** The five keys of the questionnaire that the handler reads. *)
Definition questionnaireKeys : list string :=
  ["purpose"; "colorPreference"; "animations"; "features"; "complexity"].

(** [k] leading ["../"] in front of a name. *)
Fixpoint traversalPrefix (k : nat) (name : string) : string :=
  match k with
  | O => name
  | S k' => "../" +:+ traversalPrefix k' name
  end.

(* ===================================================================== *)
(** * Sanity checks of the path model *)
(* ===================================================================== *)

Example normalize_ex1 : Path.normalize "a/../b" = "b". Proof. reflexivity. Qed.
Example normalize_ex2 : Path.normalize "../../x/./y//z/" = "../../x/y/z/". Proof. reflexivity. Qed.
Example normalize_ex3 : Path.normalize "/a/b/../../../c" = "/c". Proof. reflexivity. Qed.
Example normalize_ex4 : Path.normalize "a/.." = ".". Proof. reflexivity. Qed.
Example resolve_ex1 : Path.resolve "/srv/app" ["content/../x"] = "/srv/app/x". Proof. reflexivity. Qed.
Example resolve_ex2 : Path.resolve "/srv/app" ["/"] = "/". Proof. reflexivity. Qed.
Example join_ex1 : Path.join ["/srv/app"; "content"; "../x.tsx"] = "/srv/app/x.tsx". Proof. reflexivity. Qed.
Example sanitize_ex1 : sanitizeAndValidatePath "../button" 50 = valid "button". Proof. reflexivity. Qed.
Example sanitize_ex2 : isValid (sanitizeAndValidatePath ".." 50) = false. Proof. reflexivity. Qed.

(* ===================================================================== *)
(** * Facts about strings *)
(* ===================================================================== *)

#[local] Arguments String.append !_ _ : simpl nomatch.

Lemma append_nil_r (s : string) : s +:+ "" = s.
Proof. induction s as [|a s IH]; simpl; [reflexivity | now rewrite IH]. Qed.

Lemma append_assoc (a b c : string) : (a +:+ b) +:+ c = a +:+ b +:+ c.
Proof. induction a as [|x a IH]; simpl; [reflexivity | now rewrite IH]. Qed.

Lemma append_length (a b : string) :
  String.length (a +:+ b) = (String.length a + String.length b)%nat.
Proof. induction a as [|x a IH]; simpl; [reflexivity | now rewrite IH]. Qed.

Lemma startsWith_nil (s : string) : Js.startsWith s "" = true.
Proof. destruct s; reflexivity. Qed.

Lemma startsWith_app_cancel (p s t : string) :
  Js.startsWith (p +:+ s) (p +:+ t) = Js.startsWith s t.
Proof.
  induction p as [|a p IH]; simpl; [reflexivity |].
  now rewrite Ascii.eqb_refl.
Qed.

Lemma startsWith_app (p s : string) : Js.startsWith (p +:+ s) p = true.
Proof.
  pose proof (startsWith_app_cancel p s "") as H.
  rewrite append_nil_r, startsWith_nil in H. exact H.
Qed.

Lemma includes_here (s sub : string) :
  Js.startsWith s sub = true -> Js.includes s sub = true.
Proof. intros H. destruct s; simpl in *; rewrite H; reflexivity. Qed.

Lemma includes_app_r (a s sub : string) :
  Js.includes s sub = true -> Js.includes (a +:+ s) sub = true.
Proof.
  intros H. induction a as [|x a IH]; simpl; [exact H |].
  rewrite IH. apply orb_true_r.
Qed.


Lemma allChars_app (p : ascii -> bool) (a b : string) :
  allChars p (a +:+ b) = allChars p a && allChars p b.
Proof.
  induction a as [|x a IH]; simpl; [reflexivity |].
  now rewrite IH, andb_assoc.
Qed.

Lemma allChars_impl (p q : ascii -> bool) (s : string) :
  (forall c, p c = true -> q c = true) -> allChars p s = true -> allChars q s = true.
Proof.
  intros Hpq. induction s as [|a s IH]; simpl; [reflexivity |].
  intros [Ha Hs]%andb_true_iff. rewrite (Hpq _ Ha), (IH Hs). reflexivity.
Qed.

Lemma noChar_includes (c : ascii) (s : string) :
  noChar c s = true -> Js.includes s (String c "") = false.
Proof.
  unfold noChar. induction s as [|a s IH]; simpl; [reflexivity |].
  intros [Ha Hs]%andb_true_iff. rewrite (IH Hs).
  destruct (Ascii.eqb a c); [discriminate | reflexivity].
Qed.

Lemma noChar_first (c : ascii) (s : string) :
  noChar c s = true -> Js.startsWith s (String c "") = false.
Proof.
  unfold noChar. destruct s as [|a s]; simpl; [reflexivity |].
  intros [Ha _]%andb_true_iff. destruct (Ascii.eqb a c); [discriminate | reflexivity].
Qed.

Lemma noChar_last (c : ascii) (s : string) :
  noChar c s = true -> Js.lastCharIs c s = false.
Proof.
  unfold noChar. induction s as [|a s IH]; simpl; [reflexivity |].
  intros [Ha Hs]%andb_true_iff. destruct s as [|b s].
  - destruct (Ascii.eqb a c); [discriminate | reflexivity].
  - apply IH, Hs.
Qed.

Lemma split_noChar (c : ascii) (s : string) :
  noChar c s = true -> Js.split c s = [s].
Proof.
  unfold noChar. induction s as [|a s IH]; simpl; [reflexivity |].
  intros [Ha Hs]%andb_true_iff. rewrite (IH Hs).
  destruct (Ascii.eqb a c); [discriminate | reflexivity].
Qed.

Lemma allowedChar_not (c : ascii) :
  allowedChar c = true ->
  Ascii.eqb c "/" = false /\ Ascii.eqb c "\" = false /\ Ascii.eqb c Ascii.zero = false.
Proof.
  destruct c as [[] [] [] [] [] [] [] []]; vm_compute; intros H;
    try discriminate H; repeat split.
Qed.

Lemma allowed_noChar (s : string) (c : ascii) :
  allowedChar c = false -> allChars allowedChar s = true -> noChar c s = true.
Proof.
  intros Hc. unfold noChar. apply allChars_impl. intros a Ha.
  destruct (Ascii.eqb_spec a c) as [->|]; [congruence | reflexivity].
Qed.

Lemma stripLeadingTraversal_unfold (s : string) :
  stripLeadingTraversal s =
  if Js.startsWith s ".." then
    match s with
    | String _ (String _ (String c rest)) =>
        if Ascii.eqb c "/" || Ascii.eqb c "\" then stripLeadingTraversal rest else s
    | _ => s
    end
  else s.
Proof.
  destruct s as [|a s]; [reflexivity |].
  destruct (Ascii.eqb_spec a ".") as [->|Ha].
  - destruct s as [|b s]; [reflexivity |].
    destruct (Ascii.eqb_spec b ".") as [->|Hb].
    + destruct s; reflexivity.
    + destruct b as [[] [] [] [] [] [] [] []]; try reflexivity. congruence.
  - destruct a as [[] [] [] [] [] [] [] []]; try reflexivity. congruence.
Qed.

(** Without a leading [".."] there is nothing for the [replace] to remove. *)
Lemma stripLeadingTraversal_id (s : string) :
  Js.startsWith s ".." = false -> stripLeadingTraversal s = s.
Proof. intros H. now rewrite stripLeadingTraversal_unfold, H. Qed.

Lemma includes_false_startsWith (s sub : string) :
  Js.includes s sub = false -> Js.startsWith s sub = false.
Proof. destruct s; simpl; intros [H _]%orb_false_iff; exact H. Qed.

(* ===================================================================== *)
(** * The path sanitizer *)
(* ===================================================================== *)

(** A non-empty name without a slash is a single segment, and
    [path.normalize] returns it as it is unless it is [".."]. *)
Lemma normalize_single_segment (s : string) :
  s <> "" -> noChar Path.slash s = true -> s <> ".." -> Path.normalize s = s.
Proof.
  intros Hne Hslash Hdd. unfold Path.normalize, Path.normalizeString, Path.normSegments.
  destruct (String.eqb_spec s "") as [|_]; [contradiction |].
  change Path.sep with (String Path.slash "").
  rewrite (noChar_first _ _ Hslash), (noChar_last _ _ Hslash), (split_noChar _ _ Hslash).
  simpl. unfold Path.normStep.
  destruct (String.eqb_spec s "") as [|_]; [contradiction |].
  destruct (String.eqb_spec s ".") as [->|Hd]; [reflexivity |].
  destruct (String.eqb_spec s "..") as [|_]; [contradiction |].
  simpl. destruct (String.eqb_spec s "") as [|_]; [contradiction | reflexivity].
Qed.

(** C2, as stated, fails: an input that contains [".."] and ["/"] is accepted
    when normalization and the removal of leading ["../"] leave a clean
    name. *)
Lemma sanitize_accepts_leading_traversal :
  Js.includes "../button" ".." = true /\
  Js.includes "../button" "/" = true /\
  sanitizeAndValidatePath "../button" 50 = valid "button".
Proof. repeat split; reflexivity. Qed.

(** C2 (amended): whenever the normalized value (after [path.normalize] and
    the removal of leading ["../"] or ["..\"]) contains [".."], ["/"], ["\"]
    or NUL, [sanitizeAndValidatePath] fails with an error and returns no
    sanitized value; and a value it does return is that normalized value,
    contains none of them and consists of allowed characters only. *)
Theorem sanitize_rejects_dangerous (userInput : string) (maxLength : nat) :
  (dangerous (normalizedInput userInput) = true ->
   isValid (sanitizeAndValidatePath userInput maxLength) = false /\
   sanitizedValue (sanitizeAndValidatePath userInput maxLength) = None /\
   is_Some (error (sanitizeAndValidatePath userInput maxLength))) /\
  (forall v, sanitizedValue (sanitizeAndValidatePath userInput maxLength) = Some v ->
             v = normalizedInput userInput /\ dangerous v = false /\
             allowedPattern v = true).
Proof.
  unfold sanitizeAndValidatePath, normalizedInput.
  destruct (String.eqb userInput ""); [split; [intros _; simpl; eauto | discriminate] |].
  destruct (maxLength <? String.length userInput)%nat;
    [split; [intros _; simpl; eauto | discriminate] |].
  destruct (dangerous (stripLeadingTraversal (Path.normalize userInput))) eqn:Hd.
  - split; [intros _; simpl; eauto | discriminate].
  - split; [discriminate |].
    destruct (allowedPattern _) eqn:Ha; simpl; [| discriminate].
    intros v [= <-]. repeat split; assumption.
Qed.

Lemma sanitize_rejects_dangerous_witness :
  dangerous (normalizedInput "a/b") = true /\
  isValid (sanitizeAndValidatePath "a/b" 50) = false.
Proof.
  split; [reflexivity |].
  apply (proj1 (sanitize_rejects_dangerous "a/b" 50)). reflexivity.
Defined.

(** C3, as stated, fails: [".."] matches [^[A-Za-z0-9\-_.]{1,50}$] and is
    rejected. *)
Lemma sanitize_rejects_dotdot :
  allowedPattern ".." = true /\ (String.length ".." <= 50)%nat /\
  isValid (sanitizeAndValidatePath ".." 50) = false /\
  sanitizedValue (sanitizeAndValidatePath ".." 50) = None.
Proof. repeat split. simpl. lia. Qed.

(** C3 (amended): every input that matches [^[A-Za-z0-9\-_.]{1,50}$] and
    does not contain [".."] is accepted by [sanitizeAndValidatePath] with
    maximum length 50, and the sanitized value is the input itself. *)
Theorem sanitize_accepts_plain_names (userInput : string) :
  allowedPattern userInput = true ->
  (String.length userInput <= 50)%nat ->
  Js.includes userInput ".." = false ->
  sanitizeAndValidatePath userInput 50 = valid userInput.
Proof.
  intros [Hne Hall]%andb_true_iff Hlen Hdots.
  apply negb_true_iff in Hne.
  assert (Hs : noChar "/" userInput = true) by (apply allowed_noChar; [reflexivity | exact Hall]).
  assert (Hb : noChar "\" userInput = true) by (apply allowed_noChar; [reflexivity | exact Hall]).
  assert (Hz : noChar Ascii.zero userInput = true) by (apply allowed_noChar; [reflexivity | exact Hall]).
  assert (Hnorm : normalizedInput userInput = userInput).
  { unfold normalizedInput. rewrite normalize_single_segment.
    - apply stripLeadingTraversal_id, includes_false_startsWith, Hdots.
    - intros ->. discriminate.
    - exact Hs.
    - intros ->. discriminate. }
  unfold sanitizeAndValidatePath. fold (normalizedInput userInput).
  rewrite Hne, Hnorm.
  destruct (Nat.ltb_spec 50 (String.length userInput)) as [|_]; [lia |].
  unfold dangerous, NUL.
  rewrite Hdots, (noChar_includes _ _ Hs), (noChar_includes _ _ Hb), (noChar_includes _ _ Hz).
  simpl. unfold allowedPattern. rewrite Hne, Hall. reflexivity.
Qed.

Lemma sanitize_accepts_plain_names_witness :
  sanitizeAndValidatePath "sidebar-layout" 50 = valid "sidebar-layout".
Proof.
  apply (sanitize_accepts_plain_names "sidebar-layout"); [reflexivity | simpl; lia | reflexivity].
Defined.

(* ===================================================================== *)
(** * Canonical absolute paths and the boundary checker *)
(* ===================================================================== *)

Lemma split_nonempty (c : ascii) (s : string) : Js.split c s <> [].
Proof.
  destruct s as [|a s]; simpl; [discriminate |].
  destruct (Ascii.eqb a c); [discriminate |].
  destruct (Js.split c s); discriminate.
Qed.

Lemma split_app_sep (c : ascii) (a b : string) :
  Js.split c (a +:+ String c b) = (Js.split c a ++ Js.split c b)%list.
Proof.
  induction a as [|x a IH]; simpl.
  - now rewrite Ascii.eqb_refl.
  - rewrite IH. destruct (Ascii.eqb x c); [reflexivity |].
    pose proof (split_nonempty c a) as Hne.
    destruct (Js.split c a); [contradiction | reflexivity].
Qed.

Lemma split_elements (c : ascii) (s : string) :
  Forall (fun e => noChar c e = true) (Js.split c s).
Proof.
  induction s as [|a s IH]; simpl.
  - repeat constructor.
  - destruct (Ascii.eqb a c) eqn:Hac.
    + constructor; [reflexivity | exact IH].
    + destruct (Js.split c s) as [|h t].
      * repeat constructor. unfold noChar. simpl. now rewrite Hac.
      * inversion IH as [|? ? Hh Ht]; subst. constructor; [| exact Ht].
        unfold noChar in *. simpl. now rewrite Hac, Hh.
Qed.

Lemma split_join (c : ascii) (segs : list string) :
  segs <> [] -> Forall (fun e => noChar c e = true) segs ->
  Js.split c (Js.join (String c "") segs) = segs.
Proof.
  induction segs as [|x [|y segs] IH]; intros Hne Hall; [contradiction | |].
  - inversion Hall; subst. now apply split_noChar.
  - inversion Hall as [|? ? Hx Hrest]; subst.
    change (Js.join (String c "") (x :: y :: segs))
      with (x +:+ String c (Js.join (String c "") (y :: segs))).
    rewrite split_app_sep, (split_noChar _ _ Hx), IH; [reflexivity | discriminate | exact Hrest].
Qed.

Lemma join_snoc (sep : string) (segs : list string) (x : string) :
  segs <> [] -> Js.join sep (segs ++ [x]) = Js.join sep segs +:+ sep +:+ x.
Proof.
  induction segs as [|a [|b segs] IH]; intros Hne; [contradiction | reflexivity |].
  change (Js.join sep ((a :: b :: segs) ++ [x]))
    with (a +:+ sep +:+ Js.join sep ((b :: segs) ++ [x])).
  rewrite IH by discriminate.
  change (Js.join sep (a :: b :: segs)) with (a +:+ sep +:+ Js.join sep (b :: segs)).
  now rewrite !append_assoc.
Qed.

Lemma join_last_append (sep : string) (segs : list string) (l t : string) :
  Js.join sep (segs ++ [l]) +:+ t = Js.join sep (segs ++ [l +:+ t]).
Proof.
  induction segs as [|a segs IH]; [reflexivity |].
  destruct segs as [|b segs].
  - simpl. now rewrite !append_assoc.
  - change (Js.join sep ((a :: b :: segs) ++ [l]))
      with (a +:+ sep +:+ Js.join sep ((b :: segs) ++ [l])).
    change (Js.join sep ((a :: b :: segs) ++ [l +:+ t]))
      with (a +:+ sep +:+ Js.join sep ((b :: segs) ++ [l +:+ t])).
    now rewrite <- IH, !append_assoc.
Qed.

(** Plain segments are pushed one after the other. *)
Lemma fold_normStep_plain (allow : bool) (segs stack : list string) :
  Forall (fun e => plainSeg e = true) segs ->
  fold_left (Path.normStep allow) segs stack = (rev segs ++ stack)%list.
Proof.
  revert stack. induction segs as [|e segs IH]; intros stack Hall; [reflexivity |].
  inversion Hall as [|? ? He Hrest]; subst. simpl.
  rewrite IH by exact Hrest. rewrite <- app_assoc. simpl.
  unfold Path.normStep. unfold plainSeg in He.
  destruct (String.eqb e ""), (String.eqb e "."), (String.eqb e ".."); try discriminate.
  reflexivity.
Qed.

(** Below the root, [normalizeString] only ever keeps plain segments of its
    input. *)
Lemma fold_normStep_keeps (Q : string -> Prop) (segs stack : list string) :
  Forall Q segs ->
  Forall (fun e => plainSeg e = true /\ Q e) stack ->
  Forall (fun e => plainSeg e = true /\ Q e) (fold_left (Path.normStep false) segs stack).
Proof.
  revert stack. induction segs as [|e segs IH]; intros stack Hsegs Hstack; [exact Hstack |].
  inversion Hsegs as [|? ? He Hrest]; subst. simpl. apply IH; [exact Hrest |].
  unfold Path.normStep.
  destruct (String.eqb e "") eqn:E1; [exact Hstack |].
  destruct (String.eqb e ".") eqn:E2; [exact Hstack |]. simpl.
  destruct (String.eqb e "..") eqn:E3.
  - destruct stack as [|top rest]; [constructor |].
    destruct (String.eqb top ".."); [exact Hstack |].
    now inversion Hstack.
  - constructor; [| exact Hstack]. split; [| exact He].
    unfold plainSeg. now rewrite E1, E2, E3.
Qed.

(** [path.resolve] leaves a canonical absolute path unchanged, whatever the
    working directory. *)
Lemma resolve_render (cwd : string) (segs : list string) :
  Forall segOk segs -> Path.resolve cwd [render segs] = render segs.
Proof.
  intros Hok. unfold Path.resolve, render. simpl.
  rewrite startsWith_nil. simpl.
  change (Js.join Path.sep segs +:+ "/")
    with (Js.join Path.sep segs +:+ String Path.slash "").
  unfold Path.normalizeString, Path.normSegments. simpl.
  rewrite split_app_sep. simpl.
  assert (Hplain : Forall (fun e => plainSeg e = true) segs).
  { eapply Forall_impl; [exact Hok |]. now intros e [H _]. }
  destruct segs as [|s segs].
  - reflexivity.
  - rewrite split_join; [| discriminate |].
    + rewrite fold_left_app, (fold_normStep_plain _ (s :: segs)) by exact Hplain.
      change (Path.normStep false [] "") with (@nil string).
      rewrite app_nil_r. change (fold_left (Path.normStep false) [""] ?st) with st.
      now rewrite rev_involutive.
    + eapply Forall_impl; [exact Hok |]. now intros e [_ H].
Qed.

(** An absolute path fixed by [path.resolve] is canonical. *)
Lemma canonical_inv (cwd base : string) :
  Js.startsWith base Path.sep = true ->
  Path.resolve cwd [base] = base ->
  exists segs, Forall segOk segs /\ base = render segs.
Proof.
  intros Habs Hfix. unfold Path.resolve in Hfix. simpl in Hfix.
  destruct (String.eqb_spec base "") as [->|_]; [discriminate |].
  rewrite Habs in Hfix. unfold Path.normalizeString, Path.normSegments in Hfix.
  eexists. split; [| symmetry; exact Hfix].
  apply Forall_rev.
  apply (fold_normStep_keeps (fun e => noChar Path.slash e = true));
    [apply split_elements | constructor].
Qed.

Lemma plainSeg_long (e : string) : (2 < String.length e)%nat -> plainSeg e = true.
Proof.
  destruct e as [|a [|b [|c e]]]; simpl; intros H; try lia.
  unfold plainSeg. simpl.
  destruct (Ascii.eqb a "."), (Ascii.eqb b "."); reflexivity.
Qed.

Lemma append_neq_self (b t : string) : t <> "" -> String.eqb (b +:+ t) b = false.
Proof.
  intros Ht. destruct (String.eqb_spec (b +:+ t) b) as [E|]; [| reflexivity].
  exfalso. apply (f_equal String.length) in E. rewrite append_length in E.
  destruct t; [contradiction | simpl in E; lia].
Qed.

(** C5, as stated, fails at its two examples: below the root directory
    [base + sep + "x"] is not recognised as inside, and for a base written
    with a trailing slash [base + "-sibling/x"] is a child, not a sibling. *)
Lemma isPathWithinBase_examples_fail :
  isPathWithinBase "/srv/app" ("/" +:+ Path.sep +:+ "x") "/" = false /\
  isPathWithinBase "/srv/app" ("/srv/" +:+ "-sibling/x") "/srv/" = true.
Proof. split; reflexivity. Qed.

Lemma within_child (cwd : string) (segs : list string) :
  Forall segOk segs -> segs <> [] ->
  isPathWithinBase cwd (render segs +:+ Path.sep +:+ "x") (render segs) = true.
Proof.
  intros Hok Hne. unfold isPathWithinBase.
  assert (Hx : render segs +:+ Path.sep +:+ "x" = render (segs ++ ["x"])).
  { unfold render. now rewrite join_snoc, append_assoc by exact Hne. }
  rewrite Hx, !resolve_render; [| exact Hok |].
  - rewrite <- Hx, startsWith_app_cancel. reflexivity.
  - apply Forall_app. split; [exact Hok |]. repeat constructor.
Qed.

Lemma outside_sibling (cwd : string) (segs : list string) :
  Forall segOk segs -> segs <> [] ->
  isPathWithinBase cwd (render segs +:+ "-sibling/x") (render segs) = false.
Proof.
  intros Hok Hne. unfold isPathWithinBase.
  destruct (exists_last Hne) as (front & l & ->).
  apply Forall_app in Hok as [Hfront Hl].
  assert (Hseg : segOk l) by (now inversion Hl). destruct Hseg as [Hlp Hls].
  assert (Hx : render (front ++ [l]) +:+ "-sibling/x"
               = render ((front ++ [l +:+ "-sibling"]) ++ ["x"])).
  { unfold render. rewrite (join_snoc _ (front ++ [l +:+ "-sibling"]))
      by (intros E; symmetry in E; exact (app_cons_not_nil _ _ _ E)).
    rewrite <- join_last_append, !append_assoc. reflexivity. }
  rewrite Hx, !resolve_render.
  - rewrite <- Hx, startsWith_app_cancel, append_neq_self by discriminate. reflexivity.
  - apply Forall_app. split; [exact Hfront | repeat constructor; assumption].
  - apply Forall_app. split; [| repeat constructor].
    apply Forall_app. split; [exact Hfront |]. repeat constructor.
    + apply plainSeg_long. rewrite append_length. simpl. lia.
    + unfold noChar in *. rewrite allChars_app, Hls. reflexivity.
Qed.

(** C5 (amended): [isPathWithinBase] holds exactly when the resolved
    candidate equals the resolved base or starts with the resolved base
    followed by the separator.  For every absolute base in canonical form
    ([path.resolve] leaves it unchanged) other than the root directory,
    [base + sep + "x"] is inside and [base + "-sibling/x"] is not. *)
Theorem isPathWithinBase_spec (cwd requestedPath basePath : string) :
  (isPathWithinBase cwd requestedPath basePath = true <->
   Path.resolve cwd [requestedPath] = Path.resolve cwd [basePath] \/
   Js.startsWith (Path.resolve cwd [requestedPath])
     (Path.resolve cwd [basePath] +:+ Path.sep) = true) /\
  (Js.startsWith basePath Path.sep = true ->
   Path.resolve cwd [basePath] = basePath ->
   basePath <> "/" ->
   isPathWithinBase cwd (basePath +:+ Path.sep +:+ "x") basePath = true /\
   isPathWithinBase cwd (basePath +:+ "-sibling/x") basePath = false).
Proof.
  split.
  - unfold isPathWithinBase. rewrite orb_true_iff, String.eqb_eq. tauto.
  - intros Habs Hfix Hroot.
    destruct (canonical_inv cwd basePath Habs Hfix) as (segs & Hok & ->).
    assert (Hne : segs <> []) by (intros ->; now apply Hroot).
    split; [now apply within_child | now apply outside_sibling].
Qed.

Lemma isPathWithinBase_spec_witness :
  isPathWithinBase "/srv/app" ("/srv/app/content" +:+ Path.sep +:+ "x") "/srv/app/content" = true /\
  isPathWithinBase "/srv/app" ("/srv/app/content" +:+ "-sibling/x") "/srv/app/content" = false.
Proof.
  apply (proj2 (isPathWithinBase_spec "/srv/app" "" "/srv/app/content"));
    [reflexivity | reflexivity | discriminate].
Defined.

(* ===================================================================== *)
(** * The fetch-by-identifier handlers *)
(* ===================================================================== *)

Section FetchHandlers.

Variable formatSafeErrorMessage : Exn -> string -> string.
Variable cfg : ServerConfig.


(** The shape shared by the three handlers: validate, read one file, wrap
    its content; errors go through [fetchCatch]. *)
Lemma fetch_shape (v : Exn + unit) (path tool notFound : string)
  (wrap : string -> ContentResponse) (w : World) :
  tryCatch
    (run lift v ;; do content <- fs_readFile path ;; ret (wrap content))
    (fetchCatch formatSafeErrorMessage tool notFound) w
  = match v with
    | inl e => fetchCatch formatSafeErrorMessage tool notFound e w
    | inr _ =>
        match fst (fs_readFile path w) with
        | inr content => (inr (wrap content), logRead path w)
        | inl e => fetchCatch formatSafeErrorMessage tool notFound e (logRead path w)
        end
    end.
Proof.
  unfold tryCatch, bind, lift, fs_readFile, ret.
  destruct v as [e|[]]; [reflexivity |].
  destruct (files w !! path) as [[content|code]|]; reflexivity.
Qed.

(** Errors raised by validation are re-thrown without touching the world. *)
Lemma fetchCatch_world {A} (tool notFound : string) (e : Exn) (w : World) :
  snd (fetchCatch (A := A) formatSafeErrorMessage tool notFound e w) = w.
Proof.
  destruct e as [c m|code|m]; [reflexivity | | reflexivity]. unfold fetchCatch.
  repeat match goal with
         | |- context [match ?x with _ => _ end] => destruct x; try reflexivity
         end.
Qed.

(** A call reads exactly one file when validation passes and none when it
    fails; the clock plays no part. *)
Lemma fetch_one_read (v : Exn + unit) (path tool notFound : string)
  (wrap : string -> ContentResponse) (w : World) :
  worldAfter
    (tryCatch
       (run lift v ;; do content <- fs_readFile path ;; ret (wrap content))
       (fetchCatch formatSafeErrorMessage tool notFound)) w
  = match v with inl _ => w | inr _ => logRead path w end.
Proof.
  unfold worldAfter. rewrite fetch_shape. destruct v as [e|[]].
  - apply fetchCatch_world.
  - destruct (fst (fs_readFile path w)) as [e|content]; [| reflexivity].
    apply fetchCatch_world.
Qed.

Lemma get_catalyst_component_reads (args : gmap string JsVal) (w : World) :
  worldAfter (get_catalyst_component formatSafeErrorMessage cfg (Some args)) w
  = match validateToolInput "get_catalyst_component" args with
    | inl _ => w
    | inr _ => logRead (componentPath cfg args) w
    end.
Proof. apply fetch_one_read. Qed.





Lemma includes_app_l (a b sub : string) :
  Js.includes a sub = true -> Js.includes (a +:+ b) sub = true.
Proof.
  assert (Hs : forall a, Js.startsWith a sub = true -> Js.startsWith (a +:+ b) sub = true).
  { induction sub as [|c sub IH]; intros a' H; [apply startsWith_nil |].
    destruct a' as [|x a']; simpl in H; [discriminate |]. simpl.
    destruct (Ascii.eqb x c); [now apply IH | discriminate]. }
  induction a as [|x a IH]; simpl.
  - intros H. rewrite orb_false_r in H. apply includes_here. now apply (Hs "").
  - intros [H|H]%orb_true_iff.
    + apply (Hs (String x a)) in H. simpl in H. now rewrite H.
    + rewrite (IH H). apply orb_true_r.
Qed.


End FetchHandlers.





(** C1 fails on the code: no handler calls [isPathWithinBase], and each of
    them reads a file outside its base directory.  [get_catalyst_component]
    and [get_pattern] validate the name but build the path from the raw
    argument, so a leading ["../"] survives; [get_library_docs] has no case
    in [validateToolInput] and is not validated at all. *)
Theorem handlers_read_outside_base :
  let cwd := "/srv/app" in
  let cfg := CONFIG cwd in
  let component := {[ "component_name" := JString "../secret" ]} in
  let pattern := {[ "category" := JString "layouts";
                    "pattern_name" := JString "../../secret" ]} in
  let library := {[ "library_name" := JString "../nextjs/nextjs-full" ]} in
  (isPathWithinBase cwd (componentPath cfg component) (catalystComponentsPath cfg) = false /\
   get_catalyst_component demoFormat cfg (Some component) demoWorld
   = (inr (textResponse ("# Catalyst UI Component: ../secret" +:+ LF +:+ LF +:+ FENCE
                          +:+ "typescript" +:+ LF +:+ "SECRET" +:+ LF +:+ FENCE)),
      logRead "/srv/app/content/components/secret.tsx" demoWorld)) /\
  (isPathWithinBase cwd (patternPath cfg pattern) (patternsPath cfg) = false /\
   get_pattern demoFormat cfg (Some pattern) demoWorld
   = (inr (textResponse "SECRET"), logRead "/srv/app/content/secret.md" demoWorld)) /\
  (isPathWithinBase cwd (libraryPath cfg library) (libraryDocsPath cfg) = false /\
   get_library_docs demoFormat cfg (Some library) demoWorld
   = (inr (textResponse "DOCS"),
      logRead "/srv/app/content/docs/nextjs/nextjs-full.txt" demoWorld)).
Proof. repeat split; vm_compute; reflexivity. Qed.


(* ===================================================================== *)
(** * The recommendation scorer *)
(* ===================================================================== *)

(** ** The stable sort *)

Lemma insertSorted_perm {A} (compare : A -> A -> Z) (x : A) (l : list A) :
  Permutation (Js.insertSorted compare x l) (x :: l).
Proof.
  induction l as [|y l IH]; simpl; [reflexivity |].
  destruct (compare x y <=? 0)%Z; [reflexivity |].
  rewrite IH. apply perm_swap.
Qed.

Lemma sort_perm {A} (compare : A -> A -> Z) (l : list A) :
  Permutation (Js.sort compare l) l.
Proof.
  induction l as [|x l IH]; simpl; [reflexivity |].
  rewrite insertSorted_perm. now constructor.
Qed.

(** Inserting [x] leaves the records of any given score in their order, with
    [x] in front of those of its own score. *)
Lemma insertSorted_filter (s : Z) (x : Recommendation) (l : list Recommendation) :
  List.filter (fun r => (score r =? s)%Z) (Js.insertSorted byScoreDescending x l)
  = List.filter (fun r => (score r =? s)%Z) (x :: l).
Proof.
  induction l as [|y l IH]; [reflexivity |].
  simpl Js.insertSorted. unfold byScoreDescending at 1.
  destruct (Z.leb_spec (score y - score x) 0) as [Hle|Hgt]; [reflexivity |].
  simpl in *. rewrite IH.
  destruct (Z.eqb_spec (score x) s), (Z.eqb_spec (score y) s); try reflexivity. lia.
Qed.

Lemma sort_stable (s : Z) (l : list Recommendation) :
  List.filter (fun r => (score r =? s)%Z) (Js.sort byScoreDescending l)
  = List.filter (fun r => (score r =? s)%Z) l.
Proof.
  induction l as [|x l IH]; [reflexivity |].
  simpl Js.sort. rewrite insertSorted_filter. simpl. now rewrite IH.
Qed.

Lemma insertSorted_sorted (x : Recommendation) (l : list Recommendation) :
  StronglySorted (fun a b => (score b <= score a)%Z) l ->
  StronglySorted (fun a b => (score b <= score a)%Z)
    (Js.insertSorted byScoreDescending x l).
Proof.
  induction 1 as [|y l Hl IH Hy]; simpl.
  - repeat constructor.
  - unfold byScoreDescending at 1.
    destruct (Z.leb_spec (score y - score x) 0) as [Hle|Hgt].
    + constructor; [now constructor |].
      constructor; [lia |].
      eapply Forall_impl; [exact Hy |]. simpl. intros; lia.
    + constructor; [exact IH |].
      eapply Permutation_Forall; [symmetry; apply insertSorted_perm |].
      constructor; [lia | exact Hy].
Qed.

Lemma sort_sorted (l : list Recommendation) :
  StronglySorted (fun a b => (score b <= score a)%Z) (Js.sort byScoreDescending l).
Proof.
  induction l as [|x l IH]; simpl; [constructor | now apply insertSorted_sorted].
Qed.

(** ** Scores *)

(** A share of the feature points computed from no matched feature adds
    nothing, whatever the number of requested features. *)
Lemma no_feature_points (n : float) : (0 <? 0 + 0 / n * 15)%float = false.
Proof.
  rewrite ltb_spec, add_spec, mul_spec, div_spec.
  destruct (Prim2SF n) as [[]|[]| |[] m e]; vm_compute; reflexivity.
Qed.

Lemma scoreKit_no_match (matchData : MatchData.t) (criteria : Criteria.t) :
  noDimensionMatches matchData criteria ->
  (0 <? fst (scoreKit matchData criteria))%float = false.
Proof.
  intros (Hp & Hc & Ha & Hx & Hf). unfold scoreKit.
  rewrite Hp, Hc, Ha, Hx. unfold award, awardFeatures.
  destruct (Criteria.features criteria) as [fs|]; [| reflexivity].
  destruct (MatchData.features matchData) as [pf|]; [| reflexivity].
  destruct (0 <? length fs)%nat; [| reflexivity].
  rewrite (Hf fs pf eq_refl eq_refl). simpl fst.
  change (Js.ofNat (length [])) with 0%float. apply no_feature_points.
Qed.

Lemma In_pushed (data : TemplateData) (criteria : Criteria.t) (r : Recommendation) :
  In r (pushed data criteria) <->
  exists k, In k (starterKits data) /\ recommendationFor data criteria k = Some r.
Proof.
  unfold pushed. rewrite <- list_elem_of_In, list_elem_of_omap.
  split; intros (k & Hk & Hr); exists k; (split; [| exact Hr]);
    now apply list_elem_of_In.
Qed.

(** C6, as stated, fails: a profile that matches the four supplied
    dimensions (and the animation level as well, which the criteria leave
    out) is scored 80, not 100; the missing 20 points are those of the
    animation level. *)
Lemma full_match_example_is_not_100 :
  criterionMatches (Criteria.purpose dashboardCriteria) (MatchData.purpose demoProfile) = true /\
  criterionMatches (Criteria.colorPreference dashboardCriteria)
    (MatchData.colorPreference demoProfile) = true /\
  criterionMatches (Criteria.complexity dashboardCriteria)
    (MatchData.complexity demoProfile) = true /\
  List.filter (fun f => Js.arrayIncludes ["auth"; "darkmode"] f) ["auth"; "darkmode"]
  = ["auth"; "darkmode"] /\
  map score (calculateRecommendations demoData dashboardCriteria) = [80%Z] /\
  map score (calculateRecommendations demoData dashboardCriteria) <> [100%Z] /\
  map (fun r => length (reasons r)) (calculateRecommendations demoData dashboardCriteria) = [4%nat].
Proof. repeat split; vm_compute; (reflexivity || discriminate). Qed.

(** C6 (amended): scoring the criteria [{purpose: "dashboard",
    colorPreference: "professional", features: ["auth","darkmode"],
    complexity: "advanced"}] against a record whose matching profile matches
    all four supplied dimensions yields a scored result with score 80 and
    four reasons. *)
Theorem full_match_scores_80 (data : TemplateData) (k : StarterKit.t)
  (matchData : MatchData.t) (pf : list string) :
  In k (starterKits data) ->
  matching data !! StarterKit.id k = Some matchData ->
  criterionMatches (Some "dashboard") (MatchData.purpose matchData) = true ->
  criterionMatches (Some "professional") (MatchData.colorPreference matchData) = true ->
  MatchData.features matchData = Some pf ->
  Js.arrayIncludes pf "auth" = true ->
  Js.arrayIncludes pf "darkmode" = true ->
  criterionMatches (Some "advanced") (MatchData.complexity matchData) = true ->
  let r := {| kit := k; score := 80;
              reasons := ["Perfect match for dashboard use case";
                          "Matches professional color scheme preference";
                          "Includes 2 of your requested features";
                          "Matches advanced complexity level"] |} in
  recommendationFor data dashboardCriteria k = Some r /\
  In r (calculateRecommendations data dashboardCriteria) /\
  length (reasons r) = 4%nat.
Proof.
  intros Hk Hm Hp Hc Hf Hauth Hdark Hx r.
  assert (Hr : recommendationFor data dashboardCriteria k = Some r).
  { unfold recommendationFor, scoreKit, dashboardCriteria. rewrite Hm.
    cbn [Criteria.purpose Criteria.colorPreference Criteria.animations
         Criteria.features Criteria.complexity].
    rewrite Hp, Hc, Hx, Hf. unfold award, awardFeatures.
    cbn [List.filter length Nat.ltb Nat.leb fst snd criterionMatches].
    rewrite Hauth, Hdark. vm_compute. reflexivity. }
  split; [exact Hr |]. split; [| reflexivity].
  unfold calculateRecommendations.
  eapply Permutation_in; [symmetry; apply sort_perm |].
  apply In_pushed. eauto.
Qed.

Lemma full_match_scores_80_witness :
  In {| kit := demoKit; score := 80;
        reasons := ["Perfect match for dashboard use case";
                    "Matches professional color scheme preference";
                    "Includes 2 of your requested features";
                    "Matches advanced complexity level"] |}
    (calculateRecommendations demoData dashboardCriteria).
Proof.
  apply (full_match_scores_80 demoData demoKit demoProfile ["auth"; "darkmode"]);
    vm_compute; auto.
Defined.

(** C7, as stated, fails: a kit that matches one of thirty-one requested
    features has the positive raw score 15/31, is kept, and is reported with
    the rounded score 0. *)
Lemma rounded_score_zero_is_kept :
  calculateRecommendations demoData manyFeatures
  = [{| kit := demoKit; score := 0;
        reasons := ["Includes 1 of your requested features"] |}].
Proof. vm_compute. reflexivity. Qed.

(** C7 (amended): [calculateRecommendations] returns exactly the records
    having a matching profile whose raw (unrounded) score is strictly
    positive, each with its score rounded to the nearest integer (which can
    be 0), ordered by rounded score descending, ties keeping the records'
    input order.  When no criterion matches any profile the result is
    empty. *)
Theorem calculateRecommendations_spec (data : TemplateData) (criteria : Criteria.t) :
  (forall r,
     In r (calculateRecommendations data criteria) <->
     exists k matchData,
       In k (starterKits data) /\
       matching data !! StarterKit.id k = Some matchData /\
       (0 <? fst (scoreKit matchData criteria))%float = true /\
       r = {| kit := k;
              score := Js.round (fst (scoreKit matchData criteria));
              reasons := snd (scoreKit matchData criteria) |}) /\
  Permutation (calculateRecommendations data criteria) (pushed data criteria) /\
  StronglySorted (fun a b => (score b <= score a)%Z)
    (calculateRecommendations data criteria) /\
  (forall s,
     List.filter (fun r => (score r =? s)%Z) (calculateRecommendations data criteria)
     = List.filter (fun r => (score r =? s)%Z) (pushed data criteria)) /\
  ((forall k matchData,
      In k (starterKits data) ->
      matching data !! StarterKit.id k = Some matchData ->
      noDimensionMatches matchData criteria) ->
   calculateRecommendations data criteria = []).
Proof.
  assert (Hperm : Permutation (calculateRecommendations data criteria) (pushed data criteria))
    by apply sort_perm.
  assert (Hin : forall r,
             In r (pushed data criteria) <->
             exists k matchData,
               In k (starterKits data) /\
               matching data !! StarterKit.id k = Some matchData /\
               (0 <? fst (scoreKit matchData criteria))%float = true /\
               r = {| kit := k;
                      score := Js.round (fst (scoreKit matchData criteria));
                      reasons := snd (scoreKit matchData criteria) |}).
  { intros r. rewrite In_pushed. unfold recommendationFor. split.
    - intros (k & Hk & Hr).
      destruct (matching data !! StarterKit.id k) as [matchData|] eqn:Hm; [| discriminate].
      destruct (scoreKit matchData criteria) as [raw rs] eqn:Hs.
      destruct (0 <? raw)%float eqn:Hpos; [| discriminate].
      exists k, matchData. rewrite Hs. simpl. now inversion Hr.
    - intros (k & matchData & Hk & Hm & Hpos & ->).
      exists k. split; [exact Hk |]. rewrite Hm.
      destruct (scoreKit matchData criteria) as [raw rs]. simpl in *.
      now rewrite Hpos. }
  split; [| split; [exact Hperm | split; [apply sort_sorted | split; [intros; apply sort_stable |]]]].
  - intros r. rewrite <- Hin. split; apply Permutation_in; [exact Hperm | now symmetry].
  - intros Hnone.
    assert (Hempty : pushed data criteria = []).
    { destruct (pushed data criteria) as [|r rest] eqn:Hp; [reflexivity |].
      assert (Hr : In r (r :: rest)) by now left.
      apply Hin in Hr as (k & matchData & Hk & Hm & Hpos & _).
      rewrite (scoreKit_no_match _ _ (Hnone k matchData Hk Hm)) in Hpos. discriminate. }
    unfold calculateRecommendations. fold (pushed data criteria). now rewrite Hempty.
Qed.

Lemma calculateRecommendations_spec_witness :
  calculateRecommendations demoData
    {| Criteria.purpose := Some "portfolio"; Criteria.colorPreference := None;
       Criteria.animations := None; Criteria.features := Some ["cms"];
       Criteria.complexity := None |} = [].
Proof.
  apply (proj2 (proj2 (proj2 (proj2 (calculateRecommendations_spec demoData
    {| Criteria.purpose := Some "portfolio"; Criteria.colorPreference := None;
       Criteria.animations := None; Criteria.features := Some ["cms"];
       Criteria.complexity := None |}))))).
  intros k matchData [<-|[]] Hm. vm_compute in Hm. injection Hm as <-.
  repeat split. intros fs pf [= <-] [= <-]. reflexivity.
Defined.

(** C10: when the questionnaire answers carry the same five fields as a
    criteria object, [answer_questionnaire] computes the very recommendations
    that [recommend_template] computes for these criteria, on every template
    data set. *)
Theorem questionnaire_agrees_with_recommend (data : TemplateData)
  (answers : gmap string Answer) (criteria : Criteria.t) :
  answersCarry answers criteria ->
  answer_questionnaire_recommendations data answers
  = Some (recommend_template_recommendations data criteria).
Proof.
  intros (Hp & Hc & Ha & Hf & Hx).
  unfold answer_questionnaire_recommendations, questionnaireCriteria,
    recommend_template_recommendations, asString, asStringArray.
  rewrite Hp, Hc, Ha, Hf, Hx.
  destruct criteria as [[p|] [c|] [a|] [f|] [x|]]; reflexivity.
Qed.

Lemma questionnaire_agrees_with_recommend_witness :
  answer_questionnaire_recommendations demoData
    {[ "purpose" := AString "dashboard"; "colorPreference" := AString "professional";
       "features" := AArray ["auth"; "darkmode"]; "complexity" := AString "advanced" ]}
  = Some (recommend_template_recommendations demoData dashboardCriteria).
Proof.
  apply (questionnaire_agrees_with_recommend demoData
           {[ "purpose" := AString "dashboard"; "colorPreference" := AString "professional";
              "features" := AArray ["auth"; "darkmode"]; "complexity" := AString "advanced" ]}
           dashboardCriteria).
  repeat split; vm_compute; reflexivity.
Defined.


(* ===================================================================== *)
(** * Text search *)
(* ===================================================================== *)

Lemma natLt_mono (n m : nat) (x : Js.number) :
  (n <= m)%nat -> Js.natLt m x = true -> Js.natLt n x = true.
Proof.
  intros Hnm. destruct x as [q| | |]; simpl; try easy.
  rewrite !negb_true_iff. intros Hm.
  destruct (Qle_bool q (inject_Z (Z.of_nat n))) eqn:Hn; [| reflexivity].
  apply Qle_bool_iff in Hn.
  assert (Hq : (q <= inject_Z (Z.of_nat m))%Q).
  { eapply Qle_trans; [exact Hn |]. rewrite <- Zle_Qle. lia. }
  apply Qle_bool_iff in Hq. congruence.
Qed.

Lemma natLt_integer (n m : nat) : Js.natLt n (Js.integer m) = (n <? m)%nat.
Proof.
  unfold Js.natLt, Js.integer.
  destruct (Nat.ltb_spec n m) as [H|H].
  - apply negb_true_iff.
    destruct (Qle_bool _ _) eqn:E; [| reflexivity].
    apply Qle_bool_iff in E. rewrite <- Zle_Qle in E. lia.
  - apply negb_false_iff, Qle_bool_iff. rewrite <- Zle_Qle. lia.
Qed.

(** The scan pushes at most one excerpt per matching line, and each of them
    while [results.length < limit] holds. *)
Lemma searchLoop_bounds (lines : list string) (q : string) (limit : Js.number)
  (rest : list string) (i skip count : nat) :
  (length (searchLoop lines q limit rest i skip count)
   <= length (List.filter (lineMatches q) rest))%nat /\
  (searchLoop lines q limit rest i skip count = [] \/
   Js.natLt (count + length (searchLoop lines q limit rest i skip count) - 1) limit
   = true).
Proof.
  revert i skip count. induction rest as [|line rest IH]; intros i skip count; simpl.
  - split; [lia | now left].
  - destruct (Js.natLt count limit) eqn:Hguard; [| split; [simpl; lia | now left]].
    destruct skip as [|skip].
    + destruct (lineMatches q line); simpl.
      * destruct (IH (S i) contextLines (S count)) as [Hk Hl].
        split; [lia | right].
        destruct Hl as [-> | Hl].
        -- simpl. now replace (count + 1 - 1)%nat with count by lia.
        -- now replace (count + S (length (searchLoop lines q limit rest (S i)
                                             contextLines (S count))) - 1)%nat
             with (S count + length (searchLoop lines q limit rest (S i)
                                       contextLines (S count)) - 1)%nat by lia.
      * apply IH.
    + destruct (IH (S i) skip count) as [Hk Hl].
      split; [| exact Hl]. destruct (lineMatches q line); simpl; lia.
Qed.

Lemma searchLoop_spaced (lines : list string) (q : string) (limit : Js.number)
  (rest : list string) (i skip count : nat) :
  spaced q rest = true ->
  forallb (fun l => negb (lineMatches q l)) (firstn skip rest) = true ->
  (forall j, (j < count + length (List.filter (lineMatches q) rest))%nat ->
             Js.natLt j limit = true) ->
  length (searchLoop lines q limit rest i skip count)
  = length (List.filter (lineMatches q) rest).
Proof.
  revert i skip count. induction rest as [|line rest IH]; intros i skip count; simpl;
    [reflexivity |].
  intros [Hline Hrest]%andb_true_iff Hskip Hroom.
  destruct (Js.natLt count limit) eqn:Hguard.
  - destruct skip as [|skip].
    + destruct (lineMatches q line); simpl in *.
      * f_equal. apply IH; [exact Hrest | exact Hline |].
        intros j Hj. apply Hroom. lia.
      * apply IH; [exact Hrest | reflexivity | exact Hroom].
    + simpl in Hskip. apply andb_true_iff in Hskip as [Hno Hskip].
      destruct (lineMatches q line); [discriminate |].
      apply IH; [exact Hrest | exact Hskip | exact Hroom].
  - destruct (List.filter (lineMatches q) rest) as [|x l] eqn:Hfilter;
      destruct (lineMatches q line); simpl in *; try reflexivity;
      rewrite Hroom in Hguard by lia; discriminate.
Qed.

(** When the scan is not stopped by the limit, every matching line is an
    excerpt's own line or one of the [contextLines] lines skipped after
    it. *)
Lemma searchLoop_covers (lines : list string) (q : string) (limit : Js.number)
  (rest : list string) (i skip count : nat) :
  Js.natLt (count + length (searchLoop lines q limit rest i skip count)) limit = true ->
  (length (List.filter (lineMatches q) rest)
   <= skip + (contextLines + 1) * length (searchLoop lines q limit rest i skip count))%nat.
Proof.
  revert i skip count. induction rest as [|line rest IH]; intros i skip count; simpl;
    [lia |].
  intros Hend.
  assert (Hguard : Js.natLt count limit = true).
  { destruct (Js.natLt count limit) eqn:E; [reflexivity |].
    change (Js.natLt (count + 0) limit = true) in Hend.
    rewrite Nat.add_0_r, E in Hend. discriminate Hend. }
  rewrite Hguard in *.
  destruct skip as [|skip].
  - destruct (lineMatches q line) eqn:Hm; simpl in *.
    + replace (count + S (length (searchLoop lines q limit rest (S i)
                                    contextLines (S count))))%nat
        with (S count + length (searchLoop lines q limit rest (S i)
                                  contextLines (S count)))%nat in Hend by lia.
      apply IH in Hend. unfold contextLines in *. lia.
    + apply IH in Hend. unfold contextLines in *. lia.
  - apply IH in Hend. unfold contextLines in *.
    destruct (lineMatches q line); simpl in *; lia.
Qed.

(** C8, as stated, fails: the query occurs in two lines, fewer than the
    limit, and a single excerpt is returned, because the second line lies in
    the context that the scan skips after the first match. *)
Lemma adjacent_matches_give_one_excerpt :
  matchingLines ("App routing" +:+ LF +:+ "Routing basics") "routing" = 2%nat /\
  searchInContent ("App routing" +:+ LF +:+ "Routing basics") "routing" (Js.integer 5)
  = [FENCE +:+ LF +:+ "App routing" +:+ LF +:+ "Routing basics" +:+ LF +:+ FENCE].
Proof. split; vm_compute; reflexivity. Qed.

(** The limit is a number, not a count: with the limit 1.5 and two matching
    lines four lines apart, two excerpts are returned. *)
Lemma fractional_limit_rounds_up :
  length (searchInContent ("Routing" +:+ LF +:+ "a" +:+ LF +:+ "b" +:+ LF +:+ "c"
                           +:+ LF +:+ "App routing") "routing" (Js.Finite (3 # 2)))
  = 2%nat.
Proof. vm_compute. reflexivity. Qed.

(** C8 (amended): when the query occurs, ignoring case, in [k] lines,
    [searchInContent] returns at most [k] excerpts, never padded, and at
    most [n] for every integer [n] that is not below the number [limit]
    (so at most [limit] when it is an integer, and none when it is [NaN]
    or not positive).  It returns exactly [k] when no matching line has
    another matching line among the three lines after it and [k] is 0 or
    [k - 1 < limit].  When it returns fewer than [limit] excerpts, these are
    at least a quarter of [k].  When the query occurs in no line the result
    is the empty sequence. *)
Theorem searchInContent_count (content query : string) (limit : Js.number) :
  let found := length (searchInContent content query limit) in
  let k := matchingLines content query in
  (found <= k)%nat /\
  (forall n, Js.natLt n limit = false -> (found <= n)%nat) /\
  (k = 0%nat -> searchInContent content query limit = []) /\
  (spaced (Js.toLowerCase query) (Js.split (ascii_of_nat 10) content) = true ->
   k = 0%nat \/ Js.natLt (k - 1) limit = true ->
   found = k) /\
  (Js.natLt found limit = true -> (k <= 4 * found)%nat).
Proof.
  unfold searchInContent, matchingLines.
  set (lines := Js.split (ascii_of_nat 10) content).
  set (q := Js.toLowerCase query).
  destruct (searchLoop_bounds lines q limit lines 0 0 0) as [Hk Hl].
  cbv zeta. split; [exact Hk |]. split; [| split; [| split]].
  - intros n Hn. destruct Hl as [-> | Hl]; [simpl; lia |].
    destruct (Nat.le_gt_cases (length (searchLoop lines q limit lines 0 0 0)) n)
      as [H|H]; [exact H |].
    apply (natLt_mono n) in Hl; [congruence | lia].
  - intros H0. rewrite H0 in Hk.
    destruct (searchLoop lines q limit lines 0 0 0); [reflexivity | simpl in Hk; lia].
  - intros Hsp Hle. apply searchLoop_spaced; [exact Hsp | reflexivity |].
    intros j Hj. destruct Hle as [H0 | Hlt]; [lia |].
    apply (natLt_mono j) in Hlt; [exact Hlt | lia].
  - intros Hend. apply (searchLoop_covers lines q limit lines 0 0 0) in Hend.
    unfold contextLines in Hend. lia.
Qed.

Lemma searchInContent_count_witness :
  length (searchInContent ("Routing" +:+ LF +:+ "a" +:+ LF +:+ "b" +:+ LF +:+ "c"
                           +:+ LF +:+ "App routing") "routing" (Js.Finite (5 # 2)))
  = matchingLines ("Routing" +:+ LF +:+ "a" +:+ LF +:+ "b" +:+ LF +:+ "c"
                   +:+ LF +:+ "App routing") "routing".
Proof.
  apply (proj1 (proj2 (proj2 (proj2 (searchInContent_count
           ("Routing" +:+ LF +:+ "a" +:+ LF +:+ "b" +:+ LF +:+ "c" +:+ LF +:+ "App routing")
           "routing" (Js.Finite (5 # 2))))))).
  - vm_compute. reflexivity.
  - right. vm_compute. reflexivity.
Defined.


(* ===================================================================== *)
(** * Further properties: joining names under a canonical base *)
(* ===================================================================== *)

Lemma lastCharIs_app (c : ascii) (a b : string) :
  b <> "" -> Js.lastCharIs c (a +:+ b) = Js.lastCharIs c b.
Proof.
  intros Hb. induction a as [|x a IH]; [reflexivity |].
  simpl. rewrite IH. destruct (a +:+ b) eqn:E; [| reflexivity].
  destruct a; simpl in E; [contradiction | discriminate].
Qed.

Lemma segOk_nonempty (e : string) : segOk e -> e <> "".
Proof. intros [H _] ->. discriminate H. Qed.

Lemma join_segs_nonempty (segs : list string) :
  Forall segOk segs -> segs <> [] -> Js.join Path.sep segs <> "".
Proof.
  intros Hok Hne. destruct segs as [|s [|t segs]]; [contradiction | |].
  - inversion Hok; subst. now apply segOk_nonempty.
  - inversion Hok as [|? ? Hs _]; subst. apply segOk_nonempty in Hs.
    destruct s; [contradiction | discriminate].
Qed.

Lemma join_segs_no_trailing (segs : list string) :
  Forall segOk segs -> segs <> [] ->
  Js.lastCharIs Path.slash (Js.join Path.sep segs) = false.
Proof.
  intros Hok Hne. destruct (exists_last Hne) as (front & l & ->).
  apply Forall_app in Hok as [_ Hl].
  assert (Hseg : segOk l) by (now inversion Hl).
  destruct front as [|f front].
  - apply noChar_last, Hseg.
  - rewrite join_snoc by discriminate. rewrite <- append_assoc.
    rewrite lastCharIs_app by (now apply segOk_nonempty).
    apply noChar_last, Hseg.
Qed.

Lemma join_app (sep : string) (a b : list string) :
  a <> [] -> b <> [] ->
  Js.join sep (a ++ b) = Js.join sep a +:+ sep +:+ Js.join sep b.
Proof.
  intros Ha Hb. induction a as [|x [|y a] IH]; [contradiction | |].
  - destruct b; [contradiction | reflexivity].
  - change (Js.join sep ((x :: y :: a) ++ b))
      with (x +:+ sep +:+ Js.join sep ((y :: a) ++ b)).
    rewrite IH by discriminate.
    change (Js.join sep (x :: y :: a)) with (x +:+ sep +:+ Js.join sep (y :: a)).
    now rewrite !append_assoc.
Qed.

(** Below the root, leading empty segments disappear and plain segments
    stay. *)
Lemma normSegments_plain (empties segs : list string) :
  Forall (fun e => e = "") empties ->
  Forall segOk segs ->
  Path.normSegments false (empties ++ segs) = segs.
Proof.
  intros He Hok. unfold Path.normSegments. rewrite fold_left_app.
  assert (Hfold : fold_left (Path.normStep false) empties [] = []).
  { induction He as [|e empties -> _ IH]; [reflexivity | exact IH]. }
  rewrite Hfold, fold_normStep_plain, app_nil_r, rev_involutive; [reflexivity |].
  eapply Forall_impl; [exact Hok |]. now intros e [H _].
Qed.

Lemma segOk_noslash (segs : list string) :
  Forall segOk segs -> Forall (fun e => noChar Path.slash e = true) segs.
Proof. intros H. eapply Forall_impl; [exact H |]. now intros e [_ He]. Qed.

(** [path.normalize] on an absolute path without a trailing slash. *)
Lemma normalize_absolute (rest : string) (out : list string) :
  Js.lastCharIs Path.slash (String "/" rest) = false ->
  Path.normSegments false (Js.split Path.slash (String "/" rest)) = out ->
  Js.join Path.sep out <> "" ->
  Path.normalize (String "/" rest) = "/" +:+ Js.join Path.sep out.
Proof.
  intros Hlast Hnorm Hne. unfold Path.normalize.
  change (String.eqb (String "/" rest) "") with false.
  replace (Js.startsWith (String "/" rest) Path.sep) with true
    by (symmetry; apply (startsWith_app "/" rest)).
  rewrite Hlast. unfold Path.normalizeString. simpl negb. rewrite Hnorm.
  destruct (String.eqb_spec (Js.join Path.sep out) "") as [E|_];
    [contradiction | reflexivity].
Qed.

(** [path.normalize] leaves a canonical absolute path unchanged. *)
Lemma normalize_render (segs : list string) :
  Forall segOk segs -> Path.normalize (render segs) = render segs.
Proof.
  intros Hok. destruct segs as [|s segs]; [reflexivity |].
  apply (normalize_absolute (Js.join Path.sep (s :: segs)) (s :: segs)).
  - change (String "/" (Js.join Path.sep (s :: segs)))
      with ("/" +:+ Js.join Path.sep (s :: segs)).
    rewrite lastCharIs_app by (now apply join_segs_nonempty).
    apply join_segs_no_trailing; [assumption | discriminate].
  - change (Js.split Path.slash (String "/" (Js.join Path.sep (s :: segs))))
      with ("" :: Js.split Path.slash (Js.join (String Path.slash "") (s :: segs))).
    rewrite split_join by (discriminate || now apply segOk_noslash).
    apply (normSegments_plain [""] (s :: segs)); [repeat constructor | assumption].
  - now apply join_segs_nonempty.
Qed.

Lemma filter_nonempty_id (segs : list string) :
  Forall (fun e => e <> "") segs -> filter (fun a => a <> "") segs = segs.
Proof.
  induction 1 as [|e segs He _ IH]; [reflexivity |].
  rewrite filter_cons_True by exact He. now rewrite IH.
Qed.

(** [path.join] of a canonical absolute base with plain segments appends
    them. *)
Lemma join_render (base segs : list string) :
  Forall segOk base -> Forall segOk segs -> segs <> [] ->
  Path.join (render base :: segs) = render (base ++ segs).
Proof.
  intros Hb Hs Hne. unfold Path.join.
  rewrite (filter_nonempty_id (render base :: segs)).
  2:{ constructor; [discriminate |].
      eapply Forall_impl; [exact Hs |]. intros e. apply segOk_nonempty. }
  destruct segs as [|s segs]; [contradiction |].
  change (Js.join Path.sep (render base :: s :: segs))
    with (render base +:+ Path.sep +:+ Js.join Path.sep (s :: segs)).
  destruct base as [|b base].
  - apply (normalize_absolute (String "/" (Js.join Path.sep (s :: segs))) (s :: segs)).
    + change (String "/" (String "/" (Js.join Path.sep (s :: segs))))
        with ("//" +:+ Js.join Path.sep (s :: segs)).
      rewrite lastCharIs_app by (now apply join_segs_nonempty).
      apply join_segs_no_trailing; [assumption | discriminate].
    + change (Js.split Path.slash (String "/" (String "/" (Js.join Path.sep (s :: segs)))))
        with ("" :: "" :: Js.split Path.slash (Js.join (String Path.slash "") (s :: segs))).
      rewrite split_join by (discriminate || now apply segOk_noslash).
      apply (normSegments_plain [""; ""] (s :: segs)); [repeat constructor | assumption].
    + now apply join_segs_nonempty.
  - assert (E : render (b :: base) +:+ Path.sep +:+ Js.join Path.sep (s :: segs)
                = render ((b :: base) ++ s :: segs)).
    { unfold render. rewrite join_app by discriminate. now rewrite append_assoc. }
    rewrite E. apply normalize_render. apply Forall_app. now split.
Qed.

(** Every path below a canonical base other than the root is inside it. *)
Lemma within_descendant (cwd : string) (base segs : list string) :
  Forall segOk base -> base <> [] -> Forall segOk segs ->
  isPathWithinBase cwd (render (base ++ segs)) (render base) = true.
Proof.
  intros Hb Hne Hs. unfold isPathWithinBase.
  rewrite !resolve_render by (assumption || (apply Forall_app; now split)).
  destruct segs as [|s segs].
  - rewrite app_nil_r, String.eqb_refl. apply orb_true_r.
  - unfold render. rewrite join_app by (assumption || discriminate).
    rewrite <- !append_assoc, startsWith_app. reflexivity.
Qed.

Lemma sanitize_some_inv (userInput : string) (maxLength : nat) (v : string) :
  sanitizedValue (sanitizeAndValidatePath userInput maxLength) = Some v ->
  userInput <> "" /\ (String.length userInput <= maxLength)%nat /\
  v = normalizedInput userInput /\ dangerous v = false /\ allowedPattern v = true.
Proof.
  unfold sanitizeAndValidatePath, normalizedInput.
  destruct (String.eqb_spec userInput "") as [|Hne]; [discriminate |].
  destruct (Nat.ltb_spec maxLength (String.length userInput)) as [|Hlen]; [discriminate |].
  destruct (dangerous _) eqn:Hd; [discriminate |].
  destruct (allowedPattern _) eqn:Ha; [| discriminate].
  simpl. intros [= <-]. repeat split; assumption.
Qed.

Lemma allowedPattern_inv (s : string) :
  allowedPattern s = true -> s <> "" /\ noChar Path.slash s = true.
Proof.
  intros [Hne Hall]%andb_true_iff. split.
  - intros ->. discriminate.
  - apply allowed_noChar; [reflexivity | exact Hall].
Qed.

(** A name without a slash followed by an extension without a slash is one
    plain segment as soon as the whole has three characters. *)
Lemma segOk_file (name ext : string) :
  noChar Path.slash name = true -> noChar Path.slash ext = true ->
  (3 <= String.length (name +:+ ext))%nat -> segOk (name +:+ ext).
Proof.
  intros Hn He Hlen. split.
  - apply plainSeg_long. lia.
  - unfold noChar in *. now rewrite allChars_app, Hn, He.
Qed.

(** X1: whatever [sanitizeAndValidatePath] returns, joined under a canonical
    absolute base other than the root with an extension of at least two
    characters and no slash, is a path that [isPathWithinBase] places inside
    the base. *)
Theorem sanitized_name_stays_within_base
  (cwd base userInput : string) (maxLength : nat) (v ext : string) :
  Js.startsWith base Path.sep = true ->
  Path.resolve cwd [base] = base ->
  base <> "/" ->
  sanitizedValue (sanitizeAndValidatePath userInput maxLength) = Some v ->
  noChar Path.slash ext = true ->
  (2 <= String.length ext)%nat ->
  isPathWithinBase cwd (Path.join [base; v +:+ ext]) base = true.
Proof.
  intros Habs Hfix Hroot Hv Hext Hlen.
  destruct (canonical_inv cwd base Habs Hfix) as (segs & Hok & ->).
  assert (Hne : segs <> []) by (intros ->; now apply Hroot).
  apply sanitize_some_inv in Hv as (_ & _ & _ & _ & Hallowed).
  apply allowedPattern_inv in Hallowed as [Hvne Hvs].
  assert (Hseg : segOk (v +:+ ext)).
  { apply segOk_file; try assumption. rewrite append_length.
    destruct v; [contradiction | simpl; lia]. }
  assert (Hone : Forall segOk [v +:+ ext]) by (constructor; [exact Hseg | constructor]).
  rewrite join_render; [| exact Hok | exact Hone | discriminate].
  now apply within_descendant.
Qed.

Lemma sanitized_name_stays_within_base_witness :
  isPathWithinBase "/srv/app"
    (Path.join ["/srv/app/content/components/catalyst"; "button" +:+ ".tsx"])
    "/srv/app/content/components/catalyst" = true.
Proof.
  apply (sanitized_name_stays_within_base "/srv/app"
           "/srv/app/content/components/catalyst" "../button" 50 "button" ".tsx");
    try reflexivity; try discriminate. simpl. lia.
Defined.

(** The directories of [CONFIG] are canonical when the working directory
    is. *)
Lemma config_path (cwd : string) (segs extra : list string) :
  Forall segOk segs -> cwd = render segs -> Forall segOk extra -> extra <> [] ->
  Path.join (cwd :: extra) = render (segs ++ extra).
Proof. intros Hs -> He Hne. now apply join_render. Qed.

Lemma segOk_literals :
  segOk "content" /\ segOk "components" /\ segOk "catalyst" /\ segOk "patterns" /\
  segOk "templates" /\ segOk "starter-kits.json" /\ segOk "docs" /\ segOk "libraries" /\
  segOk "layouts" /\ segOk "pages" /\ segOk "features".
Proof. repeat split. Qed.

#[local] Ltac segs_ok :=
  repeat lazymatch goal with
         | |- Forall _ (_ :: _) => constructor
         | |- Forall _ [] => constructor
         | |- segOk _ => first [assumption | split; reflexivity]
         end.

Lemma validatePatternArgs_category (args : gmap string JsVal) :
  validatePatternArgs args = inr tt ->
  Js.arrayIncludes allowedCategories (toStr (prop args "category")) = true /\
  isValid (sanitizeAndValidatePath (toStr (prop args "pattern_name")) 50) = true.
Proof.
  unfold validatePatternArgs.
  destruct (missingOrNotString (prop args "category")); [discriminate |].
  destruct (missingOrNotString (prop args "pattern_name")); [discriminate |].
  destruct (Js.arrayIncludes allowedCategories _); [| discriminate].
  destruct (isValid _); [auto | discriminate].
Qed.

Lemma allowedCategories_segOk (c : string) :
  Js.arrayIncludes allowedCategories c = true -> segOk c.
Proof.
  unfold Js.arrayIncludes, allowedCategories. simpl.
  destruct (String.eqb_spec c "layouts") as [->|_]; [intros _; apply segOk_literals |].
  destruct (String.eqb_spec c "pages") as [->|_]; [intros _; apply segOk_literals |].
  destruct (String.eqb_spec c "features") as [->|_]; [intros _; apply segOk_literals |].
  discriminate.
Qed.

(** X2: served from a canonical absolute working directory, a handler given
    a name without a slash reads inside its base directory: the component
    path is inside [catalystComponentsPath], the pattern path (for a
    validated category) inside [patternsPath], and the library path inside
    [libraryDocsPath]. *)
Theorem slash_free_names_stay_inside (cwd : string) (args : gmap string JsVal) :
  Js.startsWith cwd Path.sep = true ->
  Path.resolve cwd [cwd] = cwd ->
  (noChar Path.slash (toStr (prop args "component_name")) = true ->
   isPathWithinBase cwd (componentPath (CONFIG cwd) args)
     (catalystComponentsPath (CONFIG cwd)) = true) /\
  (validateToolInput "get_pattern" args = inr tt ->
   noChar Path.slash (toStr (prop args "pattern_name")) = true ->
   isPathWithinBase cwd (patternPath (CONFIG cwd) args) (patternsPath (CONFIG cwd)) = true) /\
  (noChar Path.slash (toStr (prop args "library_name")) = true ->
   isPathWithinBase cwd (libraryPath (CONFIG cwd) args) (libraryDocsPath (CONFIG cwd)) = true).
Proof.
  intros Habs Hfix.
  destruct (canonical_inv cwd cwd Habs Hfix) as (segs & Hok & Hcwd).
  assert (Hfile : forall name ext, noChar Path.slash name = true ->
                    noChar Path.slash ext = true -> (3 <= String.length ext)%nat ->
                    segOk (name +:+ ext)).
  { intros name ext Hn He Hl. apply segOk_file; try assumption.
    rewrite append_length. lia. }
  split; [| split].
  - intros Hname. unfold componentPath, CONFIG, catalystComponentsPath.
    rewrite (config_path cwd segs ["content"; "components"; "catalyst"]);
      [| assumption | assumption | segs_ok | discriminate].
    rewrite join_render; [| apply Forall_app; split; [assumption | segs_ok] | | discriminate].
    + apply within_descendant.
      * apply Forall_app; split; [assumption | segs_ok].
      * intros E. apply app_eq_nil in E as [_ E]. discriminate.
      * constructor; [| constructor]. apply Hfile; [assumption | reflexivity | simpl; lia].
    + constructor; [| constructor]. apply Hfile; [assumption | reflexivity | simpl; lia].
  - intros Hv Hname. change (validateToolInput "get_pattern" args)
      with (validatePatternArgs args) in Hv.
    apply validatePatternArgs_category in Hv as [Hcat _].
    apply allowedCategories_segOk in Hcat.
    assert (Hseg : segOk (toStr (prop args "pattern_name") +:+ ".md")).
    { apply Hfile; [assumption | reflexivity | simpl; lia]. }
    unfold patternPath, CONFIG, patternsPath.
    rewrite (config_path cwd segs ["content"; "patterns"]);
      [| assumption | assumption | segs_ok | discriminate].
    rewrite join_render; [| apply Forall_app; split; [assumption | segs_ok] | | discriminate].
    + apply within_descendant.
      * apply Forall_app; split; [assumption | segs_ok].
      * intros E. apply app_eq_nil in E as [_ E]. discriminate.
      * segs_ok.
    + segs_ok.
  - intros Hname. unfold libraryPath, CONFIG, libraryDocsPath.
    rewrite (config_path cwd segs ["content"; "docs"; "libraries"]);
      [| assumption | assumption | segs_ok | discriminate].
    rewrite join_render; [| apply Forall_app; split; [assumption | segs_ok] | | discriminate].
    + apply within_descendant.
      * apply Forall_app; split; [assumption | segs_ok].
      * intros E. apply app_eq_nil in E as [_ E]. discriminate.
      * constructor; [| constructor]. apply Hfile; [assumption | reflexivity | simpl; lia].
    + constructor; [| constructor]. apply Hfile; [assumption | reflexivity | simpl; lia].
Qed.

Lemma slash_free_names_stay_inside_witness :
  isPathWithinBase "/srv/app"
    (componentPath (CONFIG "/srv/app") {[ "component_name" := JString "button" ]})
    (catalystComponentsPath (CONFIG "/srv/app")) = true.
Proof.
  apply (proj1 (slash_free_names_stay_inside "/srv/app"
                  {[ "component_name" := JString "button" ]} eq_refl eq_refl)).
  vm_compute. reflexivity.
Defined.

(** X3: the component, pattern, template and library paths of [CONFIG] all
    lie inside its content base directory, for every canonical absolute
    working directory. *)
Theorem config_paths_inside_content (cwd : string) :
  Js.startsWith cwd Path.sep = true ->
  Path.resolve cwd [cwd] = cwd ->
  let cfg := CONFIG cwd in
  isPathWithinBase cwd (catalystComponentsPath cfg) (contentBasePath cfg) = true /\
  isPathWithinBase cwd (patternsPath cfg) (contentBasePath cfg) = true /\
  isPathWithinBase cwd (templatesPath cfg) (contentBasePath cfg) = true /\
  isPathWithinBase cwd (libraryDocsPath cfg) (contentBasePath cfg) = true.
Proof.
  intros Habs Hfix.
  destruct (canonical_inv cwd cwd Habs Hfix) as (segs & Hok & Hcwd).
  assert (Hinside : forall extra,
             Forall segOk extra ->
             isPathWithinBase cwd (Path.join (cwd :: "content" :: extra))
               (Path.join [cwd; "content"]) = true).
  { intros extra Hextra.
    rewrite (config_path cwd segs ("content" :: extra));
      [| assumption | assumption | constructor; [split; reflexivity | assumption]
       | discriminate].
    rewrite (config_path cwd segs ["content"]);
      [| assumption | assumption | segs_ok | discriminate].
    change (segs ++ "content" :: extra)%list with (segs ++ ["content"] ++ extra)%list.
    rewrite app_assoc. apply within_descendant.
    - apply Forall_app; split; [assumption | segs_ok].
    - intros E. apply app_eq_nil in E as [_ E]. discriminate.
    - assumption. }
  simpl. repeat split; apply Hinside; segs_ok.
Qed.

Lemma config_paths_inside_content_witness :
  isPathWithinBase "/srv/app" "/srv/app/content/docs/libraries" "/srv/app/content" = true.
Proof.
  apply (config_paths_inside_content "/srv/app" eq_refl eq_refl).
Defined.

(* ===================================================================== *)
(** * Further properties: the sanitizer *)
(* ===================================================================== *)

Lemma traversalPrefix_length (k : nat) (name : string) :
  String.length (traversalPrefix k name) = (3 * k + String.length name)%nat.
Proof. induction k as [|k IH]; simpl; [reflexivity | rewrite IH; lia]. Qed.

Lemma traversalPrefix_split (k : nat) (name : string) :
  noChar Path.slash name = true ->
  Js.split Path.slash (traversalPrefix k name) = (repeat ".." k ++ [name])%list.
Proof.
  intros Hn. induction k as [|k IH].
  - now apply split_noChar.
  - change (traversalPrefix (S k) name)
      with (".." +:+ String Path.slash (traversalPrefix k name)).
    now rewrite split_app_sep, IH.
Qed.

Lemma traversalPrefix_join (k : nat) (name : string) :
  Js.join Path.sep (repeat ".." k ++ [name]) = traversalPrefix k name.
Proof.
  induction k as [|k IH]; [reflexivity |].
  change (repeat ".." (S k) ++ [name])%list with (".." :: (repeat ".." k ++ [name]))%list.
  destruct (repeat ".." k ++ [name])%list as [|x rest] eqn:E.
  - destruct k; discriminate.
  - change (Js.join Path.sep (".." :: x :: rest))
      with (".." +:+ "/" +:+ Js.join Path.sep (x :: rest)).
    now rewrite IH.
Qed.

Lemma fold_normStep_dotdots (k : nat) (stack : list string) :
  Forall (fun e => e = "..") stack ->
  fold_left (Path.normStep true) (repeat ".." k) stack = (repeat ".." k ++ stack)%list.
Proof.
  revert stack. induction k as [|k IH]; intros stack Hst; [reflexivity |].
  assert (Hstep : Path.normStep true stack ".." = ".." :: stack).
  { destruct Hst as [|top rest -> _]; reflexivity. }
  simpl. rewrite Hstep, IH by (constructor; [reflexivity | exact Hst]).
  change (".." :: stack) with ([".."] ++ stack)%list.
  rewrite app_assoc, <- repeat_cons. reflexivity.
Qed.

Lemma traversalPrefix_strip (k : nat) (name : string) :
  Js.startsWith name ".." = false ->
  stripLeadingTraversal (traversalPrefix k name) = name.
Proof.
  intros Hn. induction k as [|k IH]; simpl; [now apply stripLeadingTraversal_id | exact IH].
Qed.

Lemma traversalPrefix_nonempty (k : nat) (name : string) :
  name <> "" -> traversalPrefix k name <> "".
Proof. intros Hne. destruct k; [exact Hne | discriminate]. Qed.

Lemma traversalPrefix_last (k : nat) (name : string) :
  name <> "" -> noChar Path.slash name = true ->
  Js.lastCharIs Path.slash (traversalPrefix k name) = false.
Proof.
  intros Hne Hslash. induction k as [|k IH]; [now apply noChar_last |].
  change (traversalPrefix (S k) name) with ("../" +:+ traversalPrefix k name).
  rewrite lastCharIs_app; [exact IH | now apply traversalPrefix_nonempty].
Qed.

(** [path.normalize] keeps leading [".."] segments of a relative path. *)
Lemma traversalPrefix_normalize (k : nat) (name : string) :
  plainSeg name = true -> noChar Path.slash name = true ->
  Path.normalize (traversalPrefix k name) = traversalPrefix k name.
Proof.
  intros Hplain Hslash.
  assert (Hne : name <> "") by (intros ->; discriminate).
  unfold Path.normalize.
  pose proof (traversalPrefix_nonempty k name Hne) as Hnonempty.
  destruct (String.eqb_spec (traversalPrefix k name) "") as [|_]; [contradiction |].
  assert (Hrel : Js.startsWith (traversalPrefix k name) Path.sep = false).
  { destruct k; [now apply noChar_first | reflexivity]. }
  rewrite Hrel, (traversalPrefix_last k name Hne Hslash). unfold Path.normalizeString, Path.normSegments.
  rewrite traversalPrefix_split by exact Hslash. simpl negb.
  rewrite fold_left_app, fold_normStep_dotdots by constructor.
  rewrite (fold_normStep_plain true [name]) by (repeat constructor; exact Hplain).
  rewrite app_nil_r, rev_app_distr, rev_involutive, <- (rev_repeat), rev_involutive.
  rewrite traversalPrefix_join.
  destruct (String.eqb_spec (traversalPrefix k name) "") as [|_]; [contradiction | reflexivity].
Qed.

Lemma allowed_clean (name : string) :
  allowedPattern name = true -> Js.includes name ".." = false ->
  dangerous name = false.
Proof.
  intros [_ Hall]%andb_true_iff Hdots. unfold dangerous, NUL.
  rewrite Hdots.
  rewrite !noChar_includes by (apply allowed_noChar; [reflexivity | exact Hall]).
  reflexivity.
Qed.

(** The sanitizer on a value that normalization and stripping turn into a
    clean name. *)
Lemma sanitize_normalizes_to (userInput name : string) (maxLength : nat) :
  userInput <> "" -> (String.length userInput <= maxLength)%nat ->
  normalizedInput userInput = name ->
  allowedPattern name = true -> Js.includes name ".." = false ->
  sanitizeAndValidatePath userInput maxLength = valid name.
Proof.
  intros Hne Hlen Hnorm Hall Hdots. unfold sanitizeAndValidatePath.
  fold (normalizedInput userInput). rewrite Hnorm.
  destruct (String.eqb_spec userInput "") as [|_]; [contradiction |].
  destruct (Nat.ltb_spec maxLength (String.length userInput)) as [|_]; [lia |].
  now rewrite (allowed_clean name Hall Hdots), Hall.
Qed.

Lemma sanitize_prefix_valid (k : nat) (name : string) (maxLength : nat) :
  allowedPattern name = true ->
  Js.includes name ".." = false ->
  name <> "." ->
  (3 * k + String.length name <= maxLength)%nat ->
  sanitizeAndValidatePath (traversalPrefix k name) maxLength = valid name.
Proof.
  intros Hall Hdots Hdot Hlen.
  destruct (allowedPattern_inv name Hall) as [Hne Hslash].
  assert (Hplain : plainSeg name = true).
  { unfold plainSeg.
    destruct (String.eqb_spec name "") as [|_]; [contradiction |].
    destruct (String.eqb_spec name ".") as [|_]; [contradiction |].
    destruct (String.eqb_spec name "..") as [->|_]; [discriminate | reflexivity]. }
  apply sanitize_normalizes_to; try assumption.
  - now apply traversalPrefix_nonempty.
  - now rewrite traversalPrefix_length.
  - unfold normalizedInput. rewrite traversalPrefix_normalize by assumption.
    apply traversalPrefix_strip, includes_false_startsWith, Hdots.
Qed.

(** X4: leading ["../"] sequences are removed: for every name made of the
    allowed characters, other than ["."] and without [".."], the sanitizer
    accepts the name behind any number of ["../"] that fits the maximum
    length, and returns the bare name. *)
Theorem sanitize_strips_leading_traversal (k : nat) (name : string) (maxLength : nat) :
  allowedPattern name = true ->
  Js.includes name ".." = false ->
  name <> "." ->
  (3 * k + String.length name <= maxLength)%nat ->
  sanitizeAndValidatePath (traversalPrefix k name) maxLength = valid name.
Proof. apply sanitize_prefix_valid. Qed.

Lemma sanitize_strips_leading_traversal_witness :
  sanitizeAndValidatePath (traversalPrefix 3 "passwd") 50 = valid "passwd".
Proof.
  apply (sanitize_strips_leading_traversal 3 "passwd" 50);
    [reflexivity | reflexivity | discriminate | simpl; lia].
Defined.

(* ===================================================================== *)
(** * Further properties: validation and the outcomes of the handlers *)
(* ===================================================================== *)

(** Whatever [validateToolInput] throws is an [InvalidParams] error. *)
Lemma validateToolInput_error (toolName : string) (args : gmap string JsVal) (e : Exn) :
  validateToolInput toolName args = inl e ->
  exists msg, e = McpError InvalidParams msg.
Proof.
  unfold validateToolInput, validateSearchDocsArgs, validateCatalystComponentArgs,
    validatePatternArgs.
  repeat match goal with
         | |- context [if ?b then _ else _] => destruct b
         | |- context [match ?x with _ => _ end] => destruct x
         end;
    intros [= <-] || discriminate; eauto.
Qed.

#[local] Ltac next_char c :=
  let a := fresh "a" in
  let code := fresh "code" in
  intros [|a code]; [reflexivity |];
  destruct (Ascii.eqb_spec a c) as [->|?];
  [revert code | destruct a as [[] [] [] [] [] [] [] []]; try reflexivity; congruence].

(** The [catch] block tells [ENOENT] from every other system error. *)
Lemma fetchCatch_system {A} (fmt : Exn -> string -> string) (tool notFound code : string) :
  fetchCatch (A := A) fmt tool notFound (SystemError code)
  = if String.eqb code "ENOENT" then throw (McpError InvalidRequest notFound)
    else throw (McpError InternalError (fmt (SystemError code) tool)).
Proof.
  revert code.
  next_char "E"%char. next_char "N"%char. next_char "O"%char.
  next_char "E"%char. next_char "N"%char. next_char "T"%char.
  intros [|a code]; reflexivity.
Qed.

Section HandlerOutcomes.

Variable formatSafeErrorMessage : Exn -> string -> string.
Variable cfg : ServerConfig.

(** X5: arguments that fail validation are rejected before any file is
    read: [get_catalyst_component] and [get_pattern] re-throw the validation
    error, which is an [InvalidParams] error, and leave the world (and its
    read log) as it was. *)
Theorem invalid_arguments_rejected_before_read
  (args : gmap string JsVal) (w : World) (e : Exn) :
  (validateToolInput "get_catalyst_component" args = inl e ->
   get_catalyst_component formatSafeErrorMessage cfg (Some args) w = (inl e, w) /\
   exists msg, e = McpError InvalidParams msg) /\
  (validateToolInput "get_pattern" args = inl e ->
   get_pattern formatSafeErrorMessage cfg (Some args) w = (inl e, w) /\
   exists msg, e = McpError InvalidParams msg).
Proof.
  split; intros Hv; destruct (validateToolInput_error _ _ _ Hv) as [msg ->];
    (split; [| eauto]).
  - unfold get_catalyst_component. now rewrite fetch_shape, Hv.
  - unfold get_pattern. now rewrite fetch_shape, Hv.
Qed.


Lemma fetch_failure_is_mcp (v : Exn + unit) (path tool notFound : string)
  (wrap : string -> ContentResponse) (w : World) (e : Exn) :
  (forall e', v = inl e' -> exists msg, e' = McpError InvalidParams msg) ->
  fst (tryCatch
         (run lift v ;; do content <- fs_readFile path ;; ret (wrap content))
         (fetchCatch formatSafeErrorMessage tool notFound) w) = inl e ->
  exists code msg, e = McpError code msg.
Proof.
  intros Hv. rewrite fetch_shape. destruct v as [e'|[]].
  - destruct (Hv e' eq_refl) as [msg ->]. simpl. intros [= <-]. eauto.
  - destruct (fst (fs_readFile path w)) as [[c m|code|m]|content].
    + simpl. intros [= <-]. eauto.
    + rewrite fetchCatch_system. destruct (String.eqb code "ENOENT");
        simpl; intros [= <-]; eauto.
    + simpl. intros [= <-]. eauto.
    + discriminate.
Qed.

(** X7: called with an arguments object, the three fetch handlers fail with
    an [McpError] whatever goes wrong: a Node error never leaves them.
    Called without an arguments object, they throw a [TypeError] when they
    read the first property for the audit log, before their [try] block:
    nothing is validated and no file is read. *)
Theorem fetch_handler_failures (w : World) :
  (forall (args : gmap string JsVal) (e : Exn),
     fst (get_catalyst_component formatSafeErrorMessage cfg (Some args) w) = inl e \/
     fst (get_pattern formatSafeErrorMessage cfg (Some args) w) = inl e \/
     fst (get_library_docs formatSafeErrorMessage cfg (Some args) w) = inl e ->
     exists code msg, e = McpError code msg) /\
  get_catalyst_component formatSafeErrorMessage cfg None w
  = (inl (TypeError "Cannot read properties of undefined (reading 'component_name')"), w) /\
  get_pattern formatSafeErrorMessage cfg None w
  = (inl (TypeError "Cannot read properties of undefined (reading 'category')"), w) /\
  get_library_docs formatSafeErrorMessage cfg None w
  = (inl (TypeError "Cannot read properties of undefined (reading 'library_name')"), w).
Proof.
  split; [| repeat split].
  intros args e [H|[H|H]]; eapply fetch_failure_is_mcp; try exact H;
    intros e'; apply validateToolInput_error.
Qed.

End HandlerOutcomes.

Lemma invalid_arguments_rejected_before_read_witness :
  get_catalyst_component demoFormat (CONFIG "/srv/app")
    (Some {[ "component_name" := JString "a/b" ]}) demoWorld
  = (inl (McpError InvalidParams
            "Invalid component_name: Invalid characters detected in path"),
     demoWorld).
Proof.
  apply (proj1 (invalid_arguments_rejected_before_read demoFormat (CONFIG "/srv/app")
                  {[ "component_name" := JString "a/b" ]} demoWorld
                  (McpError InvalidParams
                     "Invalid component_name: Invalid characters detected in path"))).
  vm_compute. reflexivity.
Defined.


Lemma fetch_handler_failures_witness :
  exists code msg,
    McpError InvalidRequest
      "Catalyst component 'dialog' not found. Use list_catalyst_components to see available components."
    = McpError code msg.
Proof.
  apply (proj1 (fetch_handler_failures demoFormat (CONFIG "/srv/app") demoWorld)
           {[ "component_name" := JString "dialog" ]}).
  left. vm_compute. reflexivity.
Defined.

(* ===================================================================== *)
(** * Further properties: what the search returns *)
(* ===================================================================== *)

Lemma toLowerCase_app (a b : string) :
  Js.toLowerCase (a +:+ b) = Js.toLowerCase a +:+ Js.toLowerCase b.
Proof. induction a as [|x a IH]; simpl; [reflexivity | now rewrite IH]. Qed.

Lemma join_In (sep : string) (parts : list string) (x : string) :
  In x parts -> exists a b, Js.join sep parts = a +:+ x +:+ b.
Proof.
  induction parts as [|y [|z parts] IH]; intros Hin; [contradiction | |].
  - destruct Hin as [->|[]]. exists "", "". simpl. now rewrite append_nil_r.
  - destruct Hin as [->|Hin].
    + exists "", (sep +:+ Js.join sep (z :: parts)). reflexivity.
    + destruct (IH Hin) as (a & b & E).
      exists (y +:+ sep +:+ a), b.
      change (Js.join sep (y :: z :: parts)) with (y +:+ sep +:+ Js.join sep (z :: parts)).
      now rewrite E, !append_assoc.
Qed.

Lemma drop_cons_inv {A} (l : list A) (i : nat) (x : A) (rest : list A) :
  drop i l = x :: rest -> l !! i = Some x /\ drop (S i) l = rest.
Proof.
  intros E. split.
  - rewrite <- (Nat.add_0_r i), <- lookup_drop, E. reflexivity.
  - change (S i) with (1 + i)%nat. rewrite Nat.add_comm, <- drop_drop, E. reflexivity.
Qed.

(** The excerpt for line [j] contains that line. *)
Lemma excerpt_contains (lines : list string) (j : nat) (line : string) :
  lines !! j = Some line ->
  exists a b, excerptAt lines j = a +:+ line +:+ b.
Proof.
  intros Hj. unfold excerptAt, Js.slice.
  assert (Hlen : (j < length lines)%nat) by (eapply lookup_lt_Some; exact Hj).
  assert (Hin : In line (take (Nat.min (length lines) (j + contextLines + 1) - (j - contextLines))
                           (drop (j - contextLines) lines))).
  { apply list_elem_of_In, (list_elem_of_lookup_2 _ (j - (j - contextLines))).
    rewrite lookup_take_lt by (unfold contextLines; lia).
    rewrite lookup_drop. replace (j - contextLines + (j - (j - contextLines)))%nat with j
      by (unfold contextLines; lia).
    exact Hj. }
  destruct (join_In LF _ _ Hin) as (a & b & E). rewrite E.
  exists (FENCE +:+ LF +:+ a), (b +:+ LF +:+ FENCE). now rewrite !append_assoc.
Qed.

Lemma excerpt_mentions_query (lines : list string) (q : string) (j : nat) (line : string) :
  lines !! j = Some line -> lineMatches q line = true ->
  Js.includes (Js.toLowerCase (excerptAt lines j)) q = true.
Proof.
  intros Hj Hm. destruct (excerpt_contains lines j line Hj) as (a & b & ->).
  rewrite !toLowerCase_app. apply includes_app_r, includes_app_l, Hm.
Qed.

(** The loop emits the excerpts of matching lines, in document order, each
    more than [contextLines] lines after the previous one. *)
Lemma searchLoop_positions (lines : list string) (q : string) (limit : Js.number)
  (rest : list string) (i skip count : nat) :
  drop i lines = rest ->
  exists js,
    searchLoop lines q limit rest i skip count = map (excerptAt lines) js /\
    Forall (fun j => (i + skip <= j)%nat /\
                     exists line, lines !! j = Some line /\ lineMatches q line = true) js /\
    StronglySorted (fun a b => (a + contextLines < b)%nat) js.
Proof.
  revert i skip count. induction rest as [|line rest IH]; intros i skip count Hdrop.
  - exists []. repeat split; constructor.
  - apply drop_cons_inv in Hdrop as [Hi Hdrop]. simpl.
    destruct (Js.natLt count limit); [| exists []; repeat split; constructor].
    destruct skip as [|skip].
    + destruct (lineMatches q line) eqn:Hm.
      * destruct (IH (S i) contextLines (S count) Hdrop) as (js & E & Hall & Hsorted).
        exists (i :: js). split; [simpl; now rewrite E |]. split.
        -- constructor; [split; [lia | eauto] |].
           eapply Forall_impl; [exact Hall |]. simpl. intros j [Hj Hl]. split; [lia | exact Hl].
        -- constructor; [exact Hsorted |].
           eapply Forall_impl; [exact Hall |]. simpl. intros j [Hj _]. lia.
      * destruct (IH (S i) 0%nat count Hdrop) as (js & E & Hall & Hsorted).
        exists js. split; [exact E |]. split; [| exact Hsorted].
        eapply Forall_impl; [exact Hall |]. simpl. intros j [Hj Hl]. split; [lia | exact Hl].
    + destruct (IH (S i) skip count Hdrop) as (js & E & Hall & Hsorted).
      exists js. split; [exact E |]. split; [| exact Hsorted].
      eapply Forall_impl; [exact Hall |]. simpl. intros j [Hj Hl]. split; [lia | exact Hl].
Qed.

(** X8: the excerpts returned by [searchInContent] are the excerpts of lines
    that contain the query ignoring case, in document order and more than
    three lines apart; every excerpt therefore contains the query, ignoring
    case. *)
Theorem search_excerpts_are_matches (content query : string) (limit : Js.number) :
  let lines := Js.split (ascii_of_nat 10) content in
  let q := Js.toLowerCase query in
  (exists js,
     searchInContent content query limit = map (excerptAt lines) js /\
     Forall (fun j => exists line, lines !! j = Some line /\ lineMatches q line = true) js /\
     StronglySorted (fun a b => (a + 3 < b)%nat) js) /\
  Forall (fun e => Js.includes (Js.toLowerCase e) q = true)
    (searchInContent content query limit).
Proof.
  intros lines q. unfold searchInContent. fold lines. fold q.
  destruct (searchLoop_positions lines q limit lines 0 0 0 eq_refl) as (js & E & Hall & Hs).
  assert (Hm : Forall (fun j => exists line, lines !! j = Some line /\
                                  lineMatches q line = true) js).
  { eapply Forall_impl; [exact Hall |]. now intros j [_ H]. }
  split; [exists js; repeat split; assumption |].
  rewrite E. apply Forall_map.
  eapply Forall_impl; [exact Hm |]. simpl. intros j (line & Hj & Hl).
  now apply (excerpt_mentions_query lines q j line).
Qed.




(* ===================================================================== *)
(** * Further properties: the recommendations *)
(* ===================================================================== *)

Lemma award_irrelevant_reason (criterion : option string) (profile : option (list string))
  (points : float) (pre post : string) (acc : float * list string) :
  award (criterionMatches criterion profile) points
    (pre +:+ default "" criterion +:+ post) acc
  = award (criterionMatches (nonEmptyString criterion) profile) points
      (pre +:+ default "" (nonEmptyString criterion) +:+ post) acc.
Proof. destruct criterion as [[|a s]|]; destruct profile; reflexivity. Qed.

Lemma scoreKit_withoutEmpty (matchData : MatchData.t) (criteria : Criteria.t) :
  scoreKit matchData (withoutEmptyCriteria criteria) = scoreKit matchData criteria.
Proof.
  unfold scoreKit, withoutEmptyCriteria.
  cbn [Criteria.purpose Criteria.colorPreference Criteria.animations
       Criteria.features Criteria.complexity].
  rewrite <- !award_irrelevant_reason.
  destruct (Criteria.features criteria) as [[|f fs]|]; try reflexivity.
  unfold awardFeatures. destruct (MatchData.features matchData); reflexivity.
Qed.

(** X10: a criterion given as the empty string, or an empty list of
    features, changes nothing: the recommendations are those computed when
    the field is not supplied at all. *)
Theorem empty_criteria_are_ignored (data : TemplateData) (criteria : Criteria.t) :
  calculateRecommendations data criteria
  = calculateRecommendations data (withoutEmptyCriteria criteria).
Proof.
  unfold calculateRecommendations. f_equal.
  apply list_omap_ext. apply Forall2_same_length_lookup. split; [reflexivity |].
  intros i k k' Hk Hk'. rewrite Hk in Hk'. injection Hk' as <-.
  unfold recommendationFor.
  destruct (matching data !! StarterKit.id k) as [matchData|]; [| reflexivity].
  now rewrite scoreKit_withoutEmpty.
Qed.

(** The reasons only grow along the loop body, by at most one per block. *)
Lemma award_reasons (matched : bool) (points : float) (reason : string)
  (acc : float * list string) :
  snd (award matched points reason acc)
  = (snd acc ++ if matched then [reason] else [])%list.
Proof. destruct matched; simpl; [reflexivity | now rewrite app_nil_r]. Qed.

Lemma scoreKit_reasons_bound (matchData : MatchData.t) (criteria : Criteria.t) :
  (length (snd (scoreKit matchData criteria)) <= 5)%nat.
Proof.
  unfold scoreKit. rewrite award_reasons, length_app.
  unfold awardFeatures.
  destruct (Criteria.features criteria) as [fs|], (MatchData.features matchData) as [pf|];
    try destruct (0 <? length fs)%nat;
    try destruct (0 <? length (List.filter _ fs))%nat;
    cbn [snd]; rewrite ?length_app, !award_reasons, !length_app;
    repeat match goal with |- context [if ?b then _ else _] => destruct b end;
    simpl; lia.
Qed.

Lemma no_reason_no_match (matched : bool) (reason : string) :
  (if matched then [reason] else []) = [] -> matched = false.
Proof. destruct matched; [discriminate | reflexivity]. Qed.

Lemma three_awards_no_reason (b1 b2 b3 : bool) (p1 p2 p3 : float) (r1 r2 r3 : string) :
  snd (award b3 p3 r3 (award b2 p2 r2 (award b1 p1 r1 (0%float, [])))) = [] ->
  b1 = false /\ b2 = false /\ b3 = false.
Proof. destruct b1, b2, b3; simpl; intros H; try discriminate H; auto. Qed.

Lemma scoreKit_no_reason (matchData : MatchData.t) (criteria : Criteria.t) :
  snd (scoreKit matchData criteria) = [] ->
  (0 <? fst (scoreKit matchData criteria))%float = false.
Proof.
  intros Hnil. apply scoreKit_no_match. revert Hnil.
  unfold scoreKit, noDimensionMatches. rewrite award_reasons.
  intros [Hfeat Hx%no_reason_no_match]%app_eq_nil.
  assert (Hthree : snd (award
             (criterionMatches (Criteria.animations criteria)
                (MatchData.animations matchData)) 20
             ("Has " +:+ default "" (Criteria.animations criteria) +:+ " animation level")
             (award
                (criterionMatches (Criteria.colorPreference criteria)
                   (MatchData.colorPreference matchData)) 15
                ("Matches " +:+ default "" (Criteria.colorPreference criteria)
                 +:+ " color scheme preference")
                (award
                   (criterionMatches (Criteria.purpose criteria)
                      (MatchData.purpose matchData)) 40
                   ("Perfect match for " +:+ default "" (Criteria.purpose criteria)
                    +:+ " use case")
                   (0%float, [])))) = [] /\
           (forall fs pf, Criteria.features criteria = Some fs ->
                          MatchData.features matchData = Some pf ->
                          List.filter (fun f => Js.arrayIncludes pf f) fs = [])).
  { revert Hfeat. unfold awardFeatures.
    destruct (Criteria.features criteria) as [fs|], (MatchData.features matchData) as [pf|];
      try (intros H; split; [exact H | discriminate]).
    destruct (0 <? length fs)%nat eqn:Hfs.
    - destruct (List.filter (fun f => Js.arrayIncludes pf f) fs) as [|m ms] eqn:Em.
      + cbn [snd length Nat.ltb Nat.leb]. intros H. split; [exact H |].
        now intros fs' pf' [= <-] [= <-].
      + cbn [snd length Nat.ltb Nat.leb]. intros [_ [=]]%app_eq_nil.
    - intros H. split; [exact H |]. intros fs' pf' [= <-] [= <-].
      destruct fs; [reflexivity | discriminate]. }
  destruct Hthree as [Hthree Hf].
  apply three_awards_no_reason in Hthree as (Hp & Hc & Ha).
  repeat split; assumption.
Qed.

Lemma round_of_positive (x : float) : (0 <? x)%float = true -> (0 <= Js.round x)%Z.
Proof.
  rewrite ltb_spec. unfold Js.round.
  destruct (Prim2SF x) as [s|s| |s m e]; try (intros _; reflexivity || lia).
  destruct s; [vm_compute; discriminate |]. intros _.
  destruct (Z.leb_spec 0 e) as [Hle|Hlt].
  - apply Z.mul_nonneg_nonneg; [lia | apply Z.pow_nonneg; lia].
  - assert (Hd : (0 < 2 ^ (- e))%Z) by (apply Z.pow_pos_nonneg; lia).
    apply Z.div_pos; lia.
Qed.

(** X11: every recommendation carries at least one and at most five reasons,
    and its score is not negative. *)
Theorem recommendations_are_explained (data : TemplateData) (criteria : Criteria.t)
  (r : Recommendation) :
  In r (calculateRecommendations data criteria) ->
  (1 <= length (reasons r) <= 5)%nat /\ (0 <= score r)%Z.
Proof.
  intros Hin. unfold calculateRecommendations in Hin.
  apply (Permutation_in _ (sort_perm _ _)) in Hin.
  apply In_pushed in Hin as (k & _ & Hr). unfold recommendationFor in Hr.
  destruct (matching data !! StarterKit.id k) as [matchData|]; [| discriminate].
  pose proof (scoreKit_reasons_bound matchData criteria) as Hmax.
  pose proof (scoreKit_no_reason matchData criteria) as Hmin.
  destruct (scoreKit matchData criteria) as [raw rs]. simpl in *.
  destruct (0 <? raw)%float eqn:Hpos; [| discriminate].
  injection Hr as <-. simpl. split; [| now apply round_of_positive].
  split; [| exact Hmax].
  destruct rs; [specialize (Hmin eq_refl); discriminate | simpl; lia].
Qed.

Lemma recommendations_are_explained_witness :
  (1 <= length (reasons {| kit := demoKit; score := 0;
                           reasons := ["Includes 1 of your requested features"] |}) <= 5)%nat /\
  (0 <= score {| kit := demoKit; score := 0;
                 reasons := ["Includes 1 of your requested features"] |})%Z.
Proof.
  apply (recommendations_are_explained demoData manyFeatures).
  vm_compute. left. reflexivity.
Defined.

(** An answer under a key that the handler does not read leaves the criteria
    unchanged. *)
Lemma questionnaireCriteria_insert (answers : gmap string Answer) (key : string)
  (value : Answer) :
  ~ In key questionnaireKeys ->
  questionnaireCriteria (<[key := value]> answers) = questionnaireCriteria answers.
Proof.
  intros Hkey. unfold questionnaireCriteria, asString, asStringArray.
  rewrite !lookup_insert_ne; [reflexivity | ..];
    intros ->; apply Hkey; simpl; tauto.
Qed.

(** X12: the questionnaire handler reads five keys only: an answer under any
    other key changes nothing, and when none of the five keys is answered no
    template is recommended. *)
Theorem questionnaire_reads_five_keys (data : TemplateData)
  (answers : gmap string Answer) (key : string) (value : Answer) :
  (~ In key questionnaireKeys ->
   answer_questionnaire_recommendations data (<[key := value]> answers)
   = answer_questionnaire_recommendations data answers) /\
  ((forall k, In k questionnaireKeys -> answers !! k = None) ->
   answer_questionnaire_recommendations data answers = Some []).
Proof.
  split.
  - intros Hkey. unfold answer_questionnaire_recommendations.
    now rewrite questionnaireCriteria_insert.
  - intros Hnone. unfold answer_questionnaire_recommendations, questionnaireCriteria,
      asString, asStringArray.
    rewrite !Hnone by (simpl; tauto). simpl. f_equal.
    unfold calculateRecommendations.
    assert (Hempty : omap (recommendationFor data
                             {| Criteria.purpose := None; Criteria.colorPreference := None;
                                Criteria.animations := None; Criteria.features := None;
                                Criteria.complexity := None |}) (starterKits data) = []).
    { induction (starterKits data) as [|k ks IH]; [reflexivity |].
      cbn [omap list_omap]. rewrite IH. unfold recommendationFor.
      destruct (matching data !! StarterKit.id k); reflexivity. }
    now rewrite Hempty.
Qed.

Lemma questionnaire_reads_five_keys_witness :
  answer_questionnaire_recommendations demoData
    (<["budget" := AString "low"]> {[ "purpose" := AString "dashboard" ]})
  = answer_questionnaire_recommendations demoData {[ "purpose" := AString "dashboard" ]}.
Proof.
  apply (proj1 (questionnaire_reads_five_keys demoData
                  {[ "purpose" := AString "dashboard" ]} "budget" (AString "low"))).
  simpl. intros [H|[H|[H|[H|[H|[]]]]]]; discriminate H.
Defined.

(* ===================================================================== *)
(** * Further properties: the boundary checker as an order *)
(* ===================================================================== *)

Lemma startsWith_inv (s p : string) :
  Js.startsWith s p = true -> exists rest, s = p +:+ rest.
Proof.
  revert s. induction p as [|c p IH]; intros s H.
  - exists s. reflexivity.
  - destruct s as [|a s]; [discriminate |]. simpl in H.
    destruct (Ascii.eqb_spec a c) as [->|]; [| discriminate].
    destruct (IH s H) as [rest ->]. exists rest. reflexivity.
Qed.

(** X13: containment is transitive: a path inside a directory that is inside
    a base is inside that base. *)
Theorem isPathWithinBase_trans (cwd a b c : string) :
  isPathWithinBase cwd a b = true ->
  isPathWithinBase cwd b c = true ->
  isPathWithinBase cwd a c = true.
Proof.
  unfold isPathWithinBase.
  set (ra := Path.resolve cwd [a]). set (rb := Path.resolve cwd [b]).
  set (rc := Path.resolve cwd [c]).
  intros [Hab|Hab]%orb_true_iff [Hbc|Hbc]%orb_true_iff; apply orb_true_iff.
  - left. apply startsWith_inv in Hab as [r1 ->]. apply startsWith_inv in Hbc as [r2 ->].
    rewrite !append_assoc.
    rewrite <- (append_assoc rc Path.sep (r2 +:+ Path.sep +:+ r1)).
    apply startsWith_app.
  - left. apply String.eqb_eq in Hbc. now rewrite <- Hbc.
  - apply String.eqb_eq in Hab. rewrite Hab. now left.
  - apply String.eqb_eq in Hab. apply String.eqb_eq in Hbc. right.
    rewrite Hab, Hbc. apply String.eqb_refl.
Qed.

Lemma isPathWithinBase_trans_witness :
  isPathWithinBase "/srv/app" "/srv/app/content/patterns/pages/hero-section.md"
    "/srv/app/content" = true.
Proof.
  apply (isPathWithinBase_trans "/srv/app"
           "/srv/app/content/patterns/pages/hero-section.md"
           "/srv/app/content/patterns" "/srv/app/content"); reflexivity.
Defined.

Lemma fold_normStep_nonempty (allow : bool) (segs stack : list string) :
  Forall (fun e => noChar Path.slash e = true) segs ->
  Forall (fun e => e <> "" /\ noChar Path.slash e = true) stack ->
  Forall (fun e => e <> "" /\ noChar Path.slash e = true)
    (fold_left (Path.normStep allow) segs stack).
Proof.
  revert stack. induction segs as [|e segs IH]; intros stack Hsegs Hstack; [exact Hstack |].
  inversion Hsegs as [|? ? He Hrest]; subst. simpl. apply IH; [exact Hrest |].
  unfold Path.normStep.
  destruct (String.eqb_spec e "") as [|Hne]; [exact Hstack |].
  destruct (String.eqb e "."); [exact Hstack |]. simpl.
  destruct (String.eqb e "..").
  - destruct stack as [|top rest].
    + destruct allow; repeat constructor. congruence.
    + destruct (String.eqb top "..").
      * destruct allow; [| exact Hstack]. constructor; [split; [congruence | reflexivity] |].
        exact Hstack.
      * now inversion Hstack.
  - constructor; [split; assumption | exact Hstack].
Qed.

Lemma join_no_leading_slash (segs : list string) :
  Forall (fun e => e <> "" /\ noChar Path.slash e = true) segs ->
  Js.startsWith (Js.join Path.sep segs) Path.sep = false.
Proof.
  intros Hall. destruct segs as [|x rest]; [reflexivity |].
  inversion Hall as [|? ? [Hne Hx] _]; subst.
  assert (Hfirst : forall r, Js.startsWith (x +:+ r) Path.sep = false).
  { intros r. destruct x as [|a x]; [contradiction |].
    unfold noChar in Hx. simpl in Hx. apply andb_true_iff in Hx as [Ha _].
    revert Ha. unfold Path.sep, Path.slash. simpl.
    destruct (Ascii.eqb a "/"); [discriminate | reflexivity]. }
  destruct rest as [|y rest].
  - simpl. rewrite <- (append_nil_r x). apply Hfirst.
  - apply Hfirst.
Qed.

(** A resolved path never starts with two slashes. *)
Lemma resolve_no_double_slash (cwd p : string) :
  Js.startsWith (Path.resolve cwd [p]) "//" = false.
Proof.
  unfold Path.resolve. destruct (Path.resolveLoop _ _) as [rp abs].
  unfold Path.normalizeString, Path.normSegments.
  set (out := rev (fold_left (Path.normStep (negb abs)) (Js.split Path.slash rp) [])).
  assert (Hout : Js.startsWith (Js.join Path.sep out) Path.sep = false).
  { apply join_no_leading_slash, Forall_rev, fold_normStep_nonempty;
      [apply split_elements | constructor]. }
  destruct abs.
  - change (Js.startsWith ("/" +:+ Js.join Path.sep out) "//")
      with (Js.startsWith (Js.join Path.sep out) Path.sep). exact Hout.
  - destruct (String.eqb (Js.join Path.sep out) ""); [reflexivity |].
    destruct (Js.startsWith (Js.join Path.sep out) "//") eqn:E; [| reflexivity].
    apply startsWith_inv in E as [r E]. rewrite E in Hout. discriminate Hout.
Qed.

(** X14: with the root directory as base, [isPathWithinBase] accepts the
    root itself and nothing else. *)
Theorem isPathWithinBase_root (cwd requestedPath : string) :
  isPathWithinBase cwd requestedPath "/" = true <->
  Path.resolve cwd [requestedPath] = "/".
Proof.
  unfold isPathWithinBase.
  change (Path.resolve cwd ["/"]) with "/".
  change ("/" +:+ Path.sep) with "//".
  rewrite resolve_no_double_slash. simpl. apply String.eqb_eq.
Qed.

(* ===================================================================== *)
(** * Further properties: the arguments of the search tools *)
(* ===================================================================== *)

Lemma no_control_no_nul (q : string) :
  allChars (fun c => negb (isControlChar c)) q = true -> Js.includes q NUL = false.
Proof.
  intros H. apply noChar_includes. unfold noChar.
  eapply allChars_impl; [| exact H]. intros c Hc.
  destruct (Ascii.eqb_spec c Ascii.zero) as [->|]; [discriminate Hc | reflexivity].
Qed.

(** X15: the search tools accept exactly the argument objects whose [query]
    is a string of 2 to 100 characters without control characters and whose
    [limit] is absent or a number from 1 to 20; the separate test for a NUL
    character never decides. *)
Theorem search_arguments_accepted (args : gmap string JsVal) :
  (validateToolInput "search_nextjs_docs" args = inr tt <->
   exists q,
     prop args "query" = JString q /\
     (2 <= String.length q <= 100)%nat /\
     allChars (fun c => negb (isControlChar c)) q = true /\
     (prop args "limit" = JUndefined \/
      exists n, prop args "limit" = JNumber n /\ (1 <= n <= 20)%Z)) /\
  validateToolInput "search_tailwind_docs" args
  = validateToolInput "search_nextjs_docs" args.
Proof.
  split; [| reflexivity].
  change (validateToolInput "search_nextjs_docs" args) with (validateSearchDocsArgs args).
  unfold validateSearchDocsArgs. split.
  - destruct (prop args "query") as [|q|]; try discriminate.
    destruct (String.eqb q ""); [discriminate |].
    destruct (Nat.ltb_spec (String.length q) 2) as [|Hmin]; [discriminate |].
    destruct (Nat.ltb_spec 100 (String.length q)) as [|Hmax]; [discriminate |].
    destruct (allChars (fun c => negb (isControlChar c)) q) eqn:Hctl;
      [| rewrite orb_true_r; discriminate].
    rewrite (no_control_no_nul q Hctl). simpl.
    destruct (prop args "limit") as [|s|n]; try discriminate.
    + intros _. exists q. repeat split; auto; lia.
    + destruct (Z.ltb_spec n 1) as [|Hlo]; [discriminate |].
      destruct (Z.ltb_spec 20 n) as [|Hhi]; [discriminate |].
      intros _. exists q. repeat split; try (assumption || lia).
      right. exists n. split; [reflexivity | lia].
  - intros (q & -> & [Hmin Hmax] & Hctl & Hlimit).
    destruct (String.eqb_spec q "") as [->|_]; [simpl in Hmin; lia |].
    destruct (Nat.ltb_spec (String.length q) 2) as [|_]; [lia |].
    destruct (Nat.ltb_spec 100 (String.length q)) as [|_]; [lia |].
    rewrite (no_control_no_nul q Hctl), Hctl. simpl.
    destruct Hlimit as [->|(n & -> & Hn)]; [reflexivity |].
    destruct (Z.ltb_spec n 1) as [|_]; [lia |].
    destruct (Z.ltb_spec 20 n) as [|_]; [lia | reflexivity].
Qed.


(* ===================================================================== *)
(** * Further properties: where a leading "../" leads *)
(* ===================================================================== *)

(** [path.join] of a canonical directory with ["../file"] is the file next
    to the directory. *)
Lemma join_parent (base : list string) (dir file : string) :
  Forall segOk base -> segOk dir -> segOk file ->
  Path.join [render (base ++ [dir]); "../" +:+ file] = render (base ++ [file]).
Proof.
  intros Hb Hd Hf. unfold Path.join.
  assert (Hbd : Forall segOk (base ++ [dir])).
  { apply Forall_app. split; [assumption |]. constructor; [exact Hd | constructor]. }
  assert (Hbf : Forall segOk (base ++ [file])).
  { apply Forall_app. split; [assumption |]. constructor; [exact Hf | constructor]. }
  rewrite (filter_nonempty_id [render (base ++ [dir]); "../" +:+ file])
    by (repeat constructor; discriminate).
  assert (Hall : Forall (fun e => noChar Path.slash e = true)
                   ((base ++ [dir]) ++ [".."; file])).
  { apply Forall_app. split.
    - apply segOk_noslash, Hbd.
    - constructor; [reflexivity |]. constructor; [apply Hf | constructor]. }
  assert (E : Js.join Path.sep [render (base ++ [dir]); "../" +:+ file]
              = String "/" (Js.join Path.sep ((base ++ [dir]) ++ [".."; file]))).
  { rewrite (join_app Path.sep (base ++ [dir]) [".."; file]);
      [| intros H; apply app_eq_nil in H as [_ H]; discriminate | discriminate].
    reflexivity. }
  rewrite E.
  apply (normalize_absolute _ (base ++ [file])).
  - change (String "/" (Js.join Path.sep ((base ++ [dir]) ++ [".."; file])))
      with ("/" +:+ Js.join Path.sep ((base ++ [dir]) ++ [".."; file])).
    rewrite (join_app Path.sep (base ++ [dir]) [".."; file]);
      [| intros H; apply app_eq_nil in H as [_ H]; discriminate | discriminate].
    change (Js.join Path.sep [".."; file]) with ("../" +:+ file).
    rewrite <- !append_assoc.
    rewrite lastCharIs_app by (now apply segOk_nonempty).
    apply noChar_last, Hf.
  - change (Js.split Path.slash (String "/" ?x)) with ("" :: Js.split Path.slash x).
    change (Js.split Path.slash (String "/" (Js.join Path.sep ((base ++ [dir]) ++ [".."; file]))))
      with ("" :: Js.split Path.slash
                    (Js.join (String Path.slash "") ((base ++ [dir]) ++ [".."; file]))).
    rewrite split_join;
      [| intros H; apply app_eq_nil in H as [_ H]; discriminate | exact Hall].
    unfold Path.normSegments.
    change ("" :: (base ++ [dir]) ++ [".."; file])%list
      with (([""] ++ (base ++ [dir])) ++ [".."; file])%list.
    rewrite fold_left_app.
    pose proof (normSegments_plain [""] (base ++ [dir])) as Hplain.
    unfold Path.normSegments in Hplain.
    assert (Hfold : fold_left (Path.normStep false) ([""] ++ (base ++ [dir])) []
                    = rev (base ++ [dir])).
    { rewrite <- (rev_involutive (fold_left _ _ _)), Hplain; [reflexivity | |].
      - repeat constructor.
      - exact Hbd. }
    rewrite Hfold, rev_app_distr. simpl fold_left.
    assert (Hstep : Path.normStep false (dir :: rev base) ".." = rev base).
    { unfold Path.normStep. simpl.
      destruct Hd as [Hd _]. unfold plainSeg in Hd.
      destruct (String.eqb dir ".."); [| reflexivity].
      rewrite andb_false_r in Hd. discriminate. }
    change (rev [dir] ++ rev base)%list with (dir :: rev base).
    rewrite Hstep.
    assert (Hpush : Path.normStep false (rev base) file = file :: rev base).
    { unfold Path.normStep. destruct Hf as [Hf _]. unfold plainSeg in Hf.
      destruct (String.eqb file ""), (String.eqb file "."), (String.eqb file "..");
        try discriminate. reflexivity. }
    rewrite Hpush. simpl. now rewrite rev_involutive.
  - apply join_segs_nonempty; [exact Hbf |].
    intros H. apply app_eq_nil in H as [_ H]. discriminate.
Qed.

Lemma render_snoc (base : list string) :
  exists prefix, forall x, render (base ++ [x]) = prefix +:+ x.
Proof.
  destruct base as [|b base].
  - exists "/". reflexivity.
  - exists ("/" +:+ Js.join Path.sep (b :: base) +:+ Path.sep). intros x.
    unfold render. rewrite join_snoc by discriminate. now rewrite !append_assoc.
Qed.

Lemma append_inj (p a b : string) : p +:+ a = p +:+ b -> a = b.
Proof. induction p as [|c p IH]; simpl; [auto | intros [= H]; auto]. Qed.

Lemma startsWith_needs_char (c : ascii) (s p rest : string) :
  noChar c s = true -> Js.startsWith s (p +:+ String c rest) = false.
Proof.
  intros Hs. destruct (Js.startsWith s (p +:+ String c rest)) eqn:E; [| reflexivity].
  apply startsWith_inv in E as [r ->]. unfold noChar in Hs.
  rewrite !allChars_app in Hs. simpl in Hs. rewrite Ascii.eqb_refl in Hs.
  rewrite !andb_false_r, ?andb_false_l in Hs. simpl in Hs.
  discriminate.
Qed.

(** A file next to a directory is not inside it. *)
Lemma sibling_outside (cwd : string) (base : list string) (dir file : string) :
  Forall segOk base -> segOk dir -> segOk file -> file <> dir ->
  isPathWithinBase cwd (render (base ++ [file])) (render (base ++ [dir])) = false.
Proof.
  intros Hb Hd Hf Hneq. unfold isPathWithinBase.
  rewrite !resolve_render
    by (apply Forall_app; split; [assumption | constructor; [assumption | constructor]]).
  destruct (render_snoc base) as [prefix Hp]. rewrite !Hp.
  rewrite append_assoc, startsWith_app_cancel.
  change Path.sep with (String Path.slash "").
  rewrite (startsWith_needs_char Path.slash file dir "") by apply Hf.
  destruct (String.eqb_spec (prefix +:+ file) (prefix +:+ dir)) as [E|_]; [| reflexivity].
  apply append_inj in E. contradiction.
Qed.

Section Escape.

Variable formatSafeErrorMessage : Exn -> string -> string.

(** X16: one leading ["../"] takes [get_catalyst_component] out of its
    directory.  For every name of at most 47 allowed characters, other than
    ["."] and without [".."], the argument ["../" + name] passes validation,
    and the handler reads [name + ".tsx"] in the parent of the component
    directory, a path that [isPathWithinBase] places outside that
    directory. *)
Theorem leading_traversal_escapes (cwd name : string) (w : World) :
  Js.startsWith cwd Path.sep = true ->
  Path.resolve cwd [cwd] = cwd ->
  allowedPattern name = true ->
  Js.includes name ".." = false ->
  name <> "." ->
  (String.length name <= 47)%nat ->
  let args : gmap string JsVal := {[ "component_name" := JString ("../" +:+ name) ]} in
  validateToolInput "get_catalyst_component" args = inr tt /\
  componentPath (CONFIG cwd) args
  = Path.join [cwd; "content"; "components"; name +:+ ".tsx"] /\
  readLog (worldAfter (get_catalyst_component formatSafeErrorMessage (CONFIG cwd)
                         (Some args)) w)
  = (readLog w ++ [componentPath (CONFIG cwd) args])%list /\
  isPathWithinBase cwd (componentPath (CONFIG cwd) args)
    (catalystComponentsPath (CONFIG cwd)) = false.
Proof.
  intros Habs Hfix Hall Hdots Hdot Hlen args.
  destruct (canonical_inv cwd cwd Habs Hfix) as (segs & Hok & Hcwd).
  destruct (allowedPattern_inv name Hall) as [Hne Hslash].
  assert (Hfile : segOk (name +:+ ".tsx")).
  { apply segOk_file; [assumption | reflexivity |]. rewrite append_length. simpl. lia. }
  assert (Hvalid : validateToolInput "get_catalyst_component" args = inr tt).
  { change (validateToolInput "get_catalyst_component" args)
      with (validateCatalystComponentArgs args).
    unfold validateCatalystComponentArgs, prop, args. rewrite lookup_singleton_eq.
    change ("../" +:+ name) with (traversalPrefix 1 name).
    cbv beta iota delta [from_option id].
    rewrite (sanitize_prefix_valid 1 name 50) by (assumption || lia).
    destruct (String.eqb_spec (traversalPrefix 1 name) "") as [E|_];
      [discriminate E | reflexivity]. }
  assert (Hbase : catalystComponentsPath (CONFIG cwd)
                  = render ((segs ++ ["content"; "components"]) ++ ["catalyst"])).
  { unfold CONFIG, catalystComponentsPath.
    rewrite (config_path cwd segs ["content"; "components"; "catalyst"]);
      [| assumption | assumption | segs_ok | discriminate].
    now rewrite <- app_assoc. }
  assert (Hparent : Forall segOk (segs ++ ["content"; "components"]))
    by (apply Forall_app; split; [assumption | segs_ok]).
  assert (Hpath : componentPath (CONFIG cwd) args
                  = render ((segs ++ ["content"; "components"]) ++ [name +:+ ".tsx"])).
  { unfold componentPath. rewrite Hbase. unfold prop, args.
    rewrite lookup_singleton_eq. cbv beta iota delta [from_option id toStr].
    rewrite append_assoc. apply join_parent; [assumption | split; reflexivity | assumption]. }
  split; [exact Hvalid |]. split; [| split].
  - rewrite Hpath.
    rewrite (config_path cwd segs ["content"; "components"; name +:+ ".tsx"]);
      [| assumption | assumption | segs_ok | discriminate].
    now rewrite <- app_assoc.
  - rewrite get_catalyst_component_reads, Hvalid. reflexivity.
  - rewrite Hpath, Hbase. apply sibling_outside;
      [assumption | split; reflexivity | assumption |].
    intros E. apply (f_equal (Js.lastCharIs "x")) in E.
    rewrite lastCharIs_app in E by discriminate. discriminate E.
Qed.

End Escape.

Lemma leading_traversal_escapes_witness :
  isPathWithinBase "/srv/app"
    (componentPath (CONFIG "/srv/app")
       {[ "component_name" := JString ("../" +:+ "secret") ]})
    (catalystComponentsPath (CONFIG "/srv/app")) = false.
Proof.
  apply (leading_traversal_escapes demoFormat "/srv/app" "secret" demoWorld);
    try reflexivity; try discriminate. simpl. lia.
Defined.
